(** * Serverless IDE language server: validation, completion repair and hover

    A shallow embedding of the two source files that carry the editor-facing
    logic of the language server:

    - the server entry point ([validateTextDocument], [is_EOL],
      [completionHelper]), and
    - the hover service ([YAMLHover.doHover], [getResourceName],
      [getPropertyName]).

    JavaScript strings are sequences of UTF-16 code units; the document text
    is a [list N] of code units so that [charCodeAt], [substring], [substr],
    [indexOf], [trim] and [endsWith] can be written out as the engine
    evaluates them.  Keys, URIs and messages, which are only compared, are
    [string]s. *)

From Stdlib Require Import ZArith NArith List Ascii String.
From stdpp Require Import base decidable numbers option list strings gmap pretty.

Set Warnings "-register-all".

(** ** JavaScript string primitives *)

Module Js.

(** The code units of an ASCII literal. *)
Definition utf16 (s : string) : list N :=
  (λ a, N_of_ascii a) <$> list_ascii_of_string s.

Definition CR : N := 0x0d.
Definition LF : N := 0x0a.

(** [undefined] and [NaN] both convert to index 0 when they are handed to
    [substring] or [substr]. *)
Definition toIndex (o : option nat) : nat := default 0 o.

(** [arr[i]] for a numeric [i]: [undefined] outside the array. *)
Definition index {A} (arr : list A) (i : Z) : option A :=
  if decide (0 ≤ i)%Z then arr !! Z.to_nat i else None.

(** [a || b] on an array element that is a number: [undefined] and [0] are
    falsy. *)
Definition orElse (a : option nat) (b : nat) : nat :=
  match a with
  | Some (S n) => S n
  | _ => b
  end.

(** [s.substring(a, b)]: both indices are clamped to the length and swapped
    when [a > b]. *)
Definition substring (s : list N) (a b : nat) : list N :=
  let a' := a `min` length s in
  let b' := b `min` length s in
  take (a' `max` b' - a' `min` b') (drop (a' `min` b') s).

(** [s.substr(from)] with a non-negative [from]. *)
Definition substr (s : list N) (from : nat) : list N := drop from s.

(** WhiteSpace and LineTerminator code points, the ones [trim] strips. *)
Definition isWhiteSpace (c : N) : bool :=
  bool_decide (c ∈ [0x09; 0x0a; 0x0b; 0x0c; 0x0d; 0x20; 0xa0; 0x1680;
                    0x2028; 0x2029; 0x202f; 0x205f; 0x3000; 0xfeff]%N)
  || ((0x2000 <=? c)%N && (c <=? 0x200a)%N).

Fixpoint dropWhile {A} (p : A → bool) (l : list A) : list A :=
  match l with
  | [] => []
  | x :: l' => if p x then dropWhile p l' else l
  end.

Definition trim (s : list N) : list N :=
  reverse (dropWhile isWhiteSpace (reverse (dropWhile isWhiteSpace s))).

(** [s.endsWith(c)] for a one-unit string [c]. *)
Definition endsWith (s : list N) (c : N) : bool :=
  bool_decide (last s = Some c).

(** [s.indexOf(c) === -1] for a one-unit string [c]. *)
Definition lacks (s : list N) (c : N) : bool :=
  bool_decide (c ∉ s).

End Js.

(** ** The editor protocol's data *)

Module Lsp.

Record Position := mkPosition { line : Z; character : Z }.

Record Range := mkRange { range_start : Position; range_end : Position }.

Record Diagnostic := mkDiagnostic {
  range : Range;
  message : string;
  severity : option Z;
  source : option string
}.

Record TextDocument := mkTextDocument { uri : string; getText : list N }.

End Lsp.

(** ** Array utilities *)

Module ArrayUtils.
Import Js Lsp.

(** What identifies a diagnostic: its range and its message. *)
Definition diagnosticKey (d : Diagnostic) : Z * Z * Z * Z * string :=
  (line (range_start (range d)), character (range_start (range d)),
   line (range_end (range d)), character (range_end (range d)), message d).

Fixpoint removeDuplicatesFrom (seen : gset (Z * Z * Z * Z * string))
    (objArray : list Diagnostic) : list Diagnostic :=
  match objArray with
  | [] => []
  | d :: rest =>
      if decide (diagnosticKey d ∈ seen) then removeDuplicatesFrom seen rest
      else d :: removeDuplicatesFrom ({[diagnosticKey d]} ∪ seen) rest
  end.

(** Modelled from the spec: [removeDuplicatesObj] of
    language-service/utils/arrayUtils is not among the sources.  The spec
    says that duplicate diagnostics, those with the same range and message,
    are removed before the list is handed to the caller: the first
    diagnostic of every (range, message) pair is kept, in order. *)
Definition removeDuplicatesObj (objArray : list Diagnostic) : list Diagnostic :=
  removeDuplicatesFrom ∅ objArray.

Fixpoint lineOffsetsFrom (i : nat) (isLineStart : bool) (text : list N)
    : list nat :=
  (if isLineStart then [i] else []) ++
  match text with
  | [] => []
  | ch :: text' =>
      match text' with
      | ch' :: text'' =>
          if (ch =? CR)%N && (ch' =? LF)%N
          then lineOffsetsFrom (i + 2) true text''
          else lineOffsetsFrom (i + 1) ((ch =? CR)%N || (ch =? LF)%N) text'
      | [] => lineOffsetsFrom (i + 1) ((ch =? CR)%N || (ch =? LF)%N) text'
      end
  end.

(** Modelled from the spec: [getLineOffsets] of
    language-service/utils/arrayUtils is not among the sources.  The spec
    has the completion repair extract the cursor's line from the raw text
    and a line/column position: the offsets are those at which a line
    starts, a line ending with LF, CR or CR LF, and a text that ends with a
    terminator has a last, empty line. *)
Definition getLineOffsets (text : list N) : list nat :=
  match text with
  | [] => []
  | _ => lineOffsetsFrom 0 true text
  end.

End ArrayUtils.

(** ** The server entry point *)

Module Server.
Import Js Lsp.

Definition customTags : list string :=
  ["!And"; "!If"; "!Not"; "!Equals"; "!Or"; "!FindInMap"; "!Base64"; "!Cidr";
   "!Ref"; "!Sub"; "!GetAtt"; "!GetAZs"; "!ImportValue"; "!Select"; "!Split";
   "!Join"]%string.

(** What the server does to the outside world while it validates, in the
    order it does it. *)
Inductive Effect (YAMLDocument : Type) :=
  | ParseYAML (text : list N) (tags : list string)
  | DoValidation (textDocument : TextDocument) (yamlDocument : YAMLDocument)
  | SendDiagnostics (target : string) (diagnostics : list Diagnostic).
Arguments ParseYAML {_} _ _.
Arguments DoValidation {_} _ _.
Arguments SendDiagnostics {_} _ _.

(** The editor keeps, per URI, the diagnostics it was sent last. *)
Definition deliver {Y} (shown : gmap string (list Diagnostic)) (e : Effect Y)
    : gmap string (list Diagnostic) :=
  match e with
  | SendDiagnostics target ds => <[target := ds]> shown
  | _ => shown
  end.

Definition editorAfter {Y} (shown : gmap string (list Diagnostic))
    (es : list (Effect Y)) : gmap string (list Diagnostic) :=
  foldl deliver shown es.

(** [diagnosticItem.severity = 1] *)
Definition setSeverity (d : Diagnostic) : Diagnostic :=
  {| range := range d; message := message d; severity := Some 1%Z;
     source := source d |}.

Definition is_EOL (c : N) : bool := (c =? 0x0a)%N || (c =? 0x0d)%N.

(** [while (end - 1 >= 0 && is_EOL(text.charCodeAt(end - 1))) end--];
    [charCodeAt] past the text is [NaN], which is not an end of line. *)
Fixpoint stripEOL (text : list N) (end_ : nat) : nat :=
  match end_ with
  | O => O
  | S e =>
      match text !! e with
      | Some c => if is_EOL c then stripEOL text e else S e
      | None => S e
      end
  end.

Record CompletionFix := mkCompletionFix {
  newText : list N;
  newPosition : Position
}.

Section Collaborators.

(** The parts of the language service the entry point calls. *)
Context {YAMLDocument : Type}.
Variable isSupportedDocument : list N → bool.
Variable parseYAML : list N → list string → YAMLDocument.
(** [None] is a rejected promise. *)
Variable doValidation : TextDocument → YAMLDocument → option (list Diagnostic).
Variable removeDuplicatesObj : list Diagnostic → list Diagnostic.
Variable getLineOffsets : list N → list nat.

Definition validateTextDocument (textDocument : option TextDocument)
    : list (Effect YAMLDocument) :=
  match textDocument with
  | None => []
  | Some td =>
      let text := getText td in
      if decide (length text = 0) then [SendDiagnostics (uri td) []]
      else if negb (isSupportedDocument text) then [SendDiagnostics (uri td) []]
      else
        let yamlDocument := parseYAML text customTags in
        ParseYAML text customTags :: DoValidation td yamlDocument ::
        match doValidation td yamlDocument with
        | None => []
        | Some diagnosticResults =>
            let diagnostics := setSeverity <$> diagnosticResults in
            [SendDiagnostics (uri td) (removeDuplicatesObj diagnostics)]
        end
  end.

(** The first lines of [completionHelper]: the bounds of the cursor's line
    and the line itself.  [lineStart] is [lineOffset[linePos]], which is
    [undefined] past the last line. *)
Definition lineStart (document : TextDocument) (pos : Position) : option nat :=
  index (getLineOffsets (getText document)) (line pos).

(** [lineOffset[linePos + 1] || document.getText().length]: where [end]
    starts from, and where the text kept after the spliced line starts. *)
Definition nextLine (document : TextDocument) (pos : Position) : nat :=
  orElse (index (getLineOffsets (getText document)) (line pos + 1)%Z)
         (length (getText document)).

Definition lineEnd (document : TextDocument) (pos : Position) : nat :=
  stripEOL (getText document) (nextLine document pos).

Definition textLine (document : TextDocument) (pos : Position) : list N :=
  substring (getText document) (toIndex (lineStart document pos))
            (lineEnd document pos).

(** In the last branch [position] is the very object the caller passed:
    the character is decremented in place and the object handed back. *)
Definition completionHelper (document : TextDocument)
    (textDocumentPosition : Position) : CompletionFix :=
  let text := getText document in
  let start := lineStart document textDocumentPosition in
  let textLine := textLine document textDocumentPosition in
  if lacks textLine 0x3a then
    let trimmedText := trim textLine in
    let upToLine :=
      substring text 0 (toIndex ((λ s, s + length textLine) <$> start)) in
    let rest := substr text (nextLine document textDocumentPosition) in
    if bool_decide (length trimmedText = 0)
       || (bool_decide (length trimmedText = 1)
           && bool_decide (trimmedText !! 0 = Some 0x2d%N)) then
      {| newText :=
           upToLine
           ++ (if bool_decide (trimmedText !! 0 = Some 0x2d%N)
                  && negb (endsWith textLine 0x20)
               then utf16 " " else [])
           ++ utf16 "holder:" ++ [CR; LF]
           ++ rest;
         newPosition := textDocumentPosition |}
    else
      {| newText := upToLine ++ utf16 ":" ++ [CR; LF] ++ rest;
         newPosition := textDocumentPosition |}
  else
    {| newText := text;
       newPosition :=
         {| line := line textDocumentPosition;
            character := (character textDocumentPosition - 1)%Z |} |}.

End Collaborators.

(** *** Debounced validation *)

(** A timer handle.  A [NodeJS.Timer] is an object, so [if (request)] only
    tests that the entry is there. *)
Definition Timer := nat.

(** The part of the server's state that scheduling touches: the
    [pendingValidationRequests] object, and on the runtime's side the timers
    that are set, each with the document its callback holds, and the handle
    [setTimeout] gives out next. *)
Record Scheduler := mkScheduler {
  pendingValidationRequests : gmap string Timer;
  timers : gmap Timer TextDocument;
  nextTimer : Timer
}.

Definition idle : Scheduler :=
  {| pendingValidationRequests := ∅; timers := ∅; nextTimer := 0 |}.

Definition clearTimeout (request : Timer) (s : Scheduler) : Scheduler :=
  {| pendingValidationRequests := pendingValidationRequests s;
     timers := delete request (timers s);
     nextTimer := nextTimer s |}.

Definition setTimeout (held : TextDocument) (s : Scheduler)
    : Timer * Scheduler :=
  (nextTimer s,
   {| pendingValidationRequests := pendingValidationRequests s;
      timers := <[nextTimer s := held]> (timers s);
      nextTimer := S (nextTimer s) |}).

Definition deletePending (target : string) (s : Scheduler) : Scheduler :=
  {| pendingValidationRequests := delete target (pendingValidationRequests s);
     timers := timers s;
     nextTimer := nextTimer s |}.

Definition cleanPendingValidation (textDocument : TextDocument)
    (s : Scheduler) : Scheduler :=
  match pendingValidationRequests s !! uri textDocument with
  | Some request => deletePending (uri textDocument) (clearTimeout request s)
  | None => s
  end.

Definition triggerValidation (textDocument : TextDocument) (s : Scheduler)
    : Scheduler :=
  let '(request, s') :=
    setTimeout textDocument (cleanPendingValidation textDocument s) in
  {| pendingValidationRequests :=
       <[uri textDocument := request]> (pendingValidationRequests s');
     timers := timers s';
     nextTimer := nextTimer s' |}.

(** The runtime lets the timer [request] expire: a timer that was cleared,
    or has expired before, does nothing; otherwise the callback removes the
    pending entry of its document and validates it, which is the document
    handed back. *)
Definition expire (request : Timer) (s : Scheduler)
    : Scheduler * option TextDocument :=
  match timers s !! request with
  | Some textDocument =>
      (deletePending (uri textDocument) (clearTimeout request s),
       Some textDocument)
  | None => (s, None)
  end.

(** [documents.onDidClose]: the state left, and what is sent. *)
Definition onDidClose {Y} (document : TextDocument) (s : Scheduler)
    : Scheduler * list (Effect Y) :=
  (cleanPendingValidation document s, [SendDiagnostics (uri document) []]).

(** What can happen to the scheduler: [documents.onDidChangeContent], which
    triggers a validation, [documents.onDidClose], the expiry of a timer,
    and a change of the configuration, at the end of which
    [updateConfiguration] triggers a validation for every document that is
    open. *)
Inductive Event :=
  | DidChangeContent (document : TextDocument)
  | DidClose (document : TextDocument)
  | Expired (request : Timer)
  | DidChangeConfiguration (openDocuments : list TextDocument).

(** The documents that an event calls [triggerValidation] for. *)
Definition triggered (e : Event) : list TextDocument :=
  match e with
  | DidChangeContent document => [document]
  | DidChangeConfiguration openDocuments => openDocuments
  | _ => []
  end.

Definition handle (s : Scheduler) (e : Event) : Scheduler :=
  match e with
  | DidChangeContent document => triggerValidation document s
  | DidClose document => cleanPendingValidation document s
  | Expired request => (expire request s).1
  | DidChangeConfiguration openDocuments =>
      foldl (λ s document, triggerValidation document s) s openDocuments
  end.

Definition after (events : list Event) : Scheduler := foldl handle idle events.

(** The documents validated by the timers that expire during [events], in
    order. *)
Fixpoint validated (s : Scheduler) (events : list Event) : list TextDocument :=
  match events with
  | [] => []
  | e :: events' =>
      match e with
      | Expired request =>
          match (expire request s).2 with
          | Some document => [document]
          | None => []
          end
      | _ => []
      end ++ validated (handle s e) events'
  end.

(** Pending entries and set timers mirror each other, and every handle in
    use was given out before. *)
Record consistent (s : Scheduler) : Prop := {
  pending_set : ∀ target request,
    pendingValidationRequests s !! target = Some request →
    ∃ held, timers s !! request = Some held ∧ uri held = target;
  set_pending : ∀ request held,
    timers s !! request = Some held →
    pendingValidationRequests s !! uri held = Some request;
  set_old : ∀ request held,
    timers s !! request = Some held → request < nextTimer s
}.

(** *** Configuration *)

(** A field that is left out, set to [null], or set. *)
Inductive Optional (A : Type) :=
  | Undefined
  | Null
  | Defined (a : A).
Arguments Undefined {_}.
Arguments Null {_}.
Arguments Defined {_} _.

(** Truthiness of a string that may be [undefined]. *)
Definition given (s : option string) : bool :=
  match s with
  | Some s => negb (String.eqb s "")
  | None => false
  end.

Section Configuration.

(** A JSON schema is only asked for its [id]. *)
Context {JSONSchema : Type}.
Variable schemaId : JSONSchema → option string.
(** [URI.parse], and [URI.file(path.normalize(path.join(root.fsPath, uri)))]
    written out as a string. *)
Context {Root : Type}.
Variable workspacePath : Root → string → string.

(** An entry of [schemaConfigurationSettings]. *)
Record SchemaConfiguration := mkSchemaConfiguration {
  url : option string;
  schema : Optional JSONSchema;
  documentMatch : list N → bool
}.

(** An entry of [languageSettings.schemas]; [bound_schema] is [None] when
    the entry has no [schema] member at all. *)
Record SchemaBinding := mkSchemaBinding {
  bound_uri : string;
  bound_documentMatch : list N → bool;
  bound_schema : option (Optional JSONSchema)
}.

Record LanguageSettings := mkLanguageSettings {
  validate : bool;
  hover : bool;
  completion : bool;
  schemas : list SchemaBinding;
  settings_customTags : list string
}.

(** The module's variables that [updateConfiguration] reads. *)
Record Configuration := mkConfiguration {
  schemaConfigurationSettings : option (list SchemaConfiguration);
  yamlShouldValidate : bool;
  yamlShouldHover : bool;
  yamlShouldCompletion : bool;
  workspaceRoot : option Root;
  hasWorkspaceFolderCapability : bool
}.

Definition schemaStoreSettings : list SchemaBinding := [].

Definition push (binding : SchemaBinding) (languageSettings : LanguageSettings)
    : LanguageSettings :=
  {| validate := validate languageSettings;
     hover := hover languageSettings;
     completion := completion languageSettings;
     schemas := schemas languageSettings ++ [binding];
     settings_customTags := settings_customTags languageSettings |}.

Definition configureSchemas (uri : string) (documentMatch : list N → bool)
    (schema : Optional JSONSchema) (languageSettings : LanguageSettings)
    : LanguageSettings :=
  match schema with
  | Null =>
      push {| bound_uri := uri; bound_documentMatch := documentMatch;
              bound_schema := None |} languageSettings
  | _ =>
      push {| bound_uri := uri; bound_documentMatch := documentMatch;
              bound_schema := Some schema |} languageSettings
  end.

(** The body of the [forEach] in [updateConfiguration]. *)
Definition configureOne (config : Configuration)
    (languageSettings : LanguageSettings) (entry : SchemaConfiguration)
    : LanguageSettings :=
  let uri := url entry in
  let uri :=
    match schema entry with
    | Defined inline => if negb (given uri) then schemaId inline else uri
    | _ => uri
    end in
  let uri :=
    if negb (given uri) then Some "vscode://schemas/custom/*.yaml" else uri in
  match uri with
  | Some uri =>
      if negb (String.eqb uri "") then
        let uri :=
          match String.get 0 uri, workspaceRoot config with
          | Some "."%char, Some root =>
              if negb (hasWorkspaceFolderCapability config)
              then workspacePath root uri else uri
          | _, _ => uri
          end in
        configureSchemas uri (documentMatch entry) (schema entry)
                         languageSettings
      else languageSettings
  | None => languageSettings
  end.

(** The settings that [updateConfiguration] hands to the language
    service. *)
Definition languageSettingsOf (config : Configuration) : LanguageSettings :=
  let languageSettings :=
    {| validate := yamlShouldValidate config;
       hover := yamlShouldHover config;
       completion := yamlShouldCompletion config;
       schemas := [];
       settings_customTags := customTags |} in
  let languageSettings :=
    match schemaConfigurationSettings config with
    | Some entries => foldl (configureOne config) languageSettings entries
    | None => languageSettings
    end in
  {| validate := validate languageSettings;
     hover := hover languageSettings;
     completion := completion languageSettings;
     schemas := schemas languageSettings ++ schemaStoreSettings;
     settings_customTags := settings_customTags languageSettings |}.

(** [updateConfiguration]: the settings configured, and the scheduler after
    every open document was triggered. *)
Definition updateConfiguration (config : Configuration)
    (openDocuments : list TextDocument) (s : Scheduler)
    : LanguageSettings * Scheduler :=
  (languageSettingsOf config,
   foldl (λ s document, triggerValidation document s) s openDocuments).

End Configuration.

End Server.

(** ** The hover service *)

Module Hover.
Import Lsp.

(** A path segment is a key or an array index. *)
Inductive Segment :=
  | Key (k : string)
  | Index (i : N).

#[export] Instance Segment_eq_dec : EqDecision Segment.
Proof. solve_decision. Defined.

(** What [getValue()] of a node may hand back: the method is untyped, and
    the hover service calls [indexOf] on whatever it gets. *)
Inductive JSValue :=
  | JUndefined
  | JNull
  | JBool (b : bool)
  | JNumber (n : Z)
  | JString (s : string)
  | JArray (items : list JSValue)
  | JObject (props : list (string * JSValue)).

Definition truthy (v : JSValue) : bool :=
  match v with
  | JUndefined | JNull => false
  | JBool b => b
  | JNumber n => negb (n =? 0)%Z
  | JString s => negb (String.eqb s "")
  | JArray _ | JObject _ => true
  end.

(** A call either returns or throws. *)
Inductive Outcome (A : Type) :=
  | Returned (a : A)
  | Thrown (error : string).
Arguments Returned {_} _.
Arguments Thrown {_} _.

#[export] Instance Outcome_ret : MRet Outcome := λ _ a, Returned a.
#[export] Instance Outcome_bind : MBind Outcome := λ _ _ k m,
  match m with
  | Returned a => k a
  | Thrown e => Thrown e
  end.

(** [v.indexOf("AWS::") === 0]: a prefix test on a string, a test of the
    first element on an array, and a TypeError on every value that has no
    [indexOf] method. *)
Definition indexOfAWS_is0 (v : JSValue) : Outcome bool :=
  match v with
  | JString s => Returned (String.prefix "AWS::" s)
  | JArray (JString s :: _) => Returned (String.eqb s "AWS::")
  | JArray _ => Returned false
  | _ => Thrown "TypeError: resourceTypeValue.indexOf is not a function"
  end.

(** Modelled from the spec: the node classes of parser/jsonParser are not
    among the sources.  A child of a node as [getChildNodes()] lists it: its
    [type] and, for a property, [key.location] and what [value.getValue()]
    returns ([None] when the property has no value node). *)
Record ChildNode := mkChild {
  child_type : string;
  key_location : option Segment;
  value : option JSValue
}.

(** Modelled from the spec: the node classes of parser/jsonParser are not
    among the sources.  A syntax node as the hover service reads it: [type],
    the half-open interval [start]..[end], [getPath()], [getChildNodes()]
    and the [parent] back-reference. *)
Inductive ASTNode := mkNode {
  type : string;
  start : Z;
  end_ : Z;
  getPath : list Segment;
  getChildNodes : list (option ChildNode);
  parent : option ASTNode
}.

Record Hover := mkHover { contents : list string; hover_range : Range }.

Definition createHover (contents : list string) (hoverRange : Range) : Hover :=
  {| contents := contents; hover_range := hoverRange |}.

(** The requests the hover service awaits. *)
Inductive Call :=
  | GetSchemaForResource (resource : string)
  | GetPropertyDocumentation (resourceType : JSValue) (propertyName : string)
  | GetResourceDocumentation (resourceType : JSValue).

(** An asynchronous computation: the requests made, in order, and how it
    settled. *)
Definition Async (A : Type) : Type := list Call * Outcome A.

#[export] Instance Async_ret : MRet Async := λ _ a, ([], Returned a).
#[export] Instance Async_bind : MBind Async := λ _ _ k m,
  match m with
  | (calls, Returned a) => let '(calls', r) := k a in (calls ++ calls', r)
  | (calls, Thrown e) => (calls, Thrown e)
  end.

(** Awaiting a request that is answered.  The requests of [doHover] go to
    the schema service and the documentation service, and what is described
    here are the runs in which they answer: a promise of theirs that is
    rejected would reject [doHover] as well. *)
Definition await {A} (call : Call) (answer : A) : Async A :=
  ([call], Returned answer).

Definition settle {A} (o : Outcome A) : Async A := ([], o).

Record IJSONSchemaService (Schema : Type) := {
  getSchemaForResource : string → option Schema
}.
Arguments getSchemaForResource {_} _ _.

Record DocumentationService := {
  getPropertyDocumentation : JSValue → string → option string;
  getResourceDocumentation : JSValue → option string
}.

Record YAMLHover (Schema : Type) := mkYAMLHover {
  schemaService : IJSONSchemaService Schema;
  shouldHover : bool;
  documentationService : DocumentationService
}.
Arguments schemaService {_} _.
Arguments shouldHover {_} _.
Arguments documentationService {_} _.

Definition configure {Schema} (self : YAMLHover Schema)
    (languageSettings : option bool) : YAMLHover Schema :=
  match languageSettings with
  | Some hover =>
      {| schemaService := schemaService self; shouldHover := hover;
         documentationService := documentationService self |}
  | None => self
  end.

(** The callback of [children.find] in [getResourceName]. *)
Fixpoint findResourceType (children : list (option ChildNode))
    : Outcome (option JSValue) :=
  match children with
  | [] => Returned None
  | child :: rest =>
      match child with
      | Some property =>
          if String.eqb (child_type property) "property"
             && bool_decide (key_location property = Some (Key "Type"))
          then
            match value property with
            | Some resourceTypeValue =>
                if truthy resourceTypeValue then
                  found ← indexOfAWS_is0 resourceTypeValue;
                  if found : bool then Returned (Some resourceTypeValue)
                  else findResourceType rest
                else findResourceType rest
            | None => findResourceType rest
            end
          else findResourceType rest
      | None => findResourceType rest
      end
  end.

(** The inner [getResourceName] arrow function. *)
Definition resourceNameOf (targetNode : ASTNode) : Outcome (option JSValue) :=
  if negb (String.eqb (type targetNode) "object") then Returned None
  else findResourceType (getChildNodes targetNode).

Definition maxDepth : nat := 7.

(** The [while] loop of [getResourceName], [budget] being
    [maxDepth - depth]. *)
Fixpoint searchAncestors (budget : nat) (currentNode : option ASTNode)
    : Outcome (option JSValue) :=
  match budget, currentNode with
  | S budget', Some current =>
      resourceName ← resourceNameOf current;
      match resourceName with
      | Some _ => Returned resourceName
      | None => searchAncestors budget' (parent current)
      end
  | _, _ => Returned None
  end.

Definition getResourceName (node : ASTNode) : Outcome (option JSValue) :=
  let path := getPath node in
  if bool_decide (path !! 0 = Some (Key "Resources"))
     && bool_decide (1 < length path) then
    resourceName ← resourceNameOf node;
    match resourceName with
    | Some _ => Returned resourceName
    | None => searchAncestors maxDepth (parent node)
    end
  else Returned None.

Definition getPropertyName (node : ASTNode) : option Segment :=
  let path := getPath node in
  if bool_decide (4 ≤ length path)
     && bool_decide (path !! 0 = Some (Key "Resources"))
     && bool_decide (path !! 2 = Some (Key "Properties"))
  then path !! 3
  else None.

(** Truthiness of a path segment, and [String(segment)]. *)
Definition segmentTruthy (s : Segment) : bool :=
  match s with
  | Key k => negb (String.eqb k "")
  | Index i => negb (i =? 0)%N
  end.

Definition String_ (s : Segment) : string :=
  match s with
  | Key k => k
  | Index i => pretty i
  end.

(** The guard of [doHover] on the resolved node. *)
Definition insideContainer (node : ASTNode) (offset : Z) : bool :=
  (String.eqb (type node) "object" || String.eqb (type node) "array")
  && bool_decide (start node + 1 < offset)%Z
  && bool_decide (offset < end_ node - 1)%Z.

(** The node reached by following [parent] [k] times. *)
Fixpoint ancestor (k : nat) (node : ASTNode) : option ASTNode :=
  match k with
  | O => Some node
  | S k' =>
      match parent node with
      | Some up => ancestor k' up
      | None => None
      end
  end.

(** A property child keyed [Type] whose value passed the test of
    [getResourceName]. *)
Definition declaresType (node : ASTNode) (v : JSValue) : Prop :=
  type node = "object" ∧
  ∃ property, Some property ∈ getChildNodes node
    ∧ child_type property = "property"
    ∧ key_location property = Some (Key "Type")
    ∧ value property = Some v
    ∧ truthy v = true
    ∧ indexOfAWS_is0 v = Returned true.

(** A child that, if it is a property keyed [Type] with a value, has a
    string for that value. *)
Definition typeIsString (child : option ChildNode) : Prop :=
  ∀ property v, child = Some property →
    child_type property = "property" →
    key_location property = Some (Key "Type") →
    value property = Some v →
    ∃ s, v = JString s.

Section Service.

Context {Schema YAMLDocument SingleYAMLDocument : Type}.
(** The text document's own methods, from the protocol library. *)
Variable offsetAt : TextDocument → Position → Z.
Variable positionAt : TextDocument → Z → Position.
(** The parser's side. *)
Variable matchOffsetToDocument : Z → YAMLDocument → option SingleYAMLDocument.
Variable getNodeFromOffset : SingleYAMLDocument → Z → option ASTNode.

(** [doHover] from the resolved node on. *)
Definition describeNode (self : YAMLHover Schema) (document : TextDocument)
    (node : ASTNode) : Async (option Hover) :=
  let hoverRange :=
    {| range_start := positionAt document (start node);
       range_end := positionAt document (end_ node) |} in
  if bool_decide (2 ≤ length (getPath node)) then
    resourceType ← settle (getResourceName node);
    let propertyName := getPropertyName node in
    match resourceType with
    | Some resourceType =>
        if truthy resourceType then
          markdown ←
            match propertyName with
            | Some name =>
                if segmentTruthy name then
                  await (GetPropertyDocumentation resourceType (String_ name))
                        (getPropertyDocumentation (documentationService self)
                           resourceType (String_ name))
                else
                  await (GetResourceDocumentation resourceType)
                        (getResourceDocumentation (documentationService self)
                           resourceType)
            | None =>
                await (GetResourceDocumentation resourceType)
                      (getResourceDocumentation (documentationService self)
                         resourceType)
            end;
          match markdown with
          | Some text =>
              if negb (String.eqb text "")
              then mret (Some (createHover [text] hoverRange))
              else mret None
          | None => mret None
          end
        else mret None
    | None => mret None
    end
  else mret None.

Definition doHover (self : YAMLHover Schema) (document : option TextDocument)
    (position : Position) (doc : YAMLDocument) : Async (option Hover) :=
  match document with
  | Some document =>
      if negb (shouldHover self) then mret None
      else
        schema ← await (GetSchemaForResource (uri document))
                       (getSchemaForResource (schemaService self) (uri document));
        match schema with
        | None => mret None
        | Some _ =>
            let offset := offsetAt document position in
            match matchOffsetToDocument offset doc with
            | None => mret None
            | Some currentDoc =>
                match getNodeFromOffset currentDoc offset with
                | None => mret None
                | Some node =>
                    if insideContainer node offset then mret None
                    else describeNode self document node
                end
            end
        end
  | None => mret None
  end.

End Service.

End Hover.

(** ** Sample documents *)

Module Samples.
Import Js Lsp Server.

Definition template : TextDocument :=
  {| uri := "file:///template.yaml"; getText := utf16 "Resources:" |}.

Definition blank : TextDocument :=
  {| uri := "file:///template.yaml"; getText := [] |}.

Definition at_ (l c : Z) : Position := {| line := l; character := c |}.

Definition missingType (level : Z) : Diagnostic :=
  {| range := {| range_start := at_ 1 2; range_end := at_ 1 10 |};
     message := "Missing property Type";
     severity := Some level;
     source := Some "yaml" |}.

Definition badValue : Diagnostic :=
  {| range := {| range_start := at_ 3 4; range_end := at_ 3 9 |};
     message := "Incorrect type. Expected string";
     severity := None;
     source := Some "yaml" |}.

Definition reported : list Diagnostic :=
  [missingType 2; badValue; missingType 1].

Definition mapping : TextDocument :=
  {| uri := "file:///template.yaml";
     getText := utf16 "a: 1" ++ [LF] ++ utf16 "b" |}.

Definition partialKey : TextDocument :=
  {| uri := "file:///template.yaml";
     getText := utf16 "key" ++ [LF] ++ utf16 "b: 1" |}.
(** The schema entries that a configuration change installs: the
    CloudFormation schema by URL and an inline schema, here given by its
    [id], each with its matcher. *)
Definition defaultConfiguration (isCloudFormationTemplate isSAMTemplate
    : list N → bool) (sam : option string) (root : option string)
    : Configuration (JSONSchema := option string) (Root := string) :=
  {| schemaConfigurationSettings :=
       Some [ {| url := Some "https://raw.githubusercontent.com/awslabs/goformation/master/schema/cloudformation.schema.json";
                 schema := Undefined;
                 documentMatch := isCloudFormationTemplate |};
              {| url := None;
                 schema := Defined sam;
                 documentMatch := isSAMTemplate |} ];
     yamlShouldValidate := true;
     yamlShouldHover := true;
     yamlShouldCompletion := true;
     workspaceRoot := root;
     hasWorkspaceFolderCapability := false |}.

Definition blankLines : TextDocument :=
  {| uri := "file:///template.yaml";
     getText := utf16 "a" ++ [LF; LF; LF] ++ utf16 "b" |}.

End Samples.

(** ** Sample templates for the hover service *)

Module HoverSamples.
Import Js Lsp Hover Samples.

(** [offsetAt] and [positionAt] of the protocol library, on line offsets. *)
Definition offsetAt (document : TextDocument) (position : Position) : Z :=
  match index (ArrayUtils.getLineOffsets (getText document)) (line position) with
  | Some lineOffset => Z.of_nat lineOffset + character position
  | None => Z.of_nat (length (getText document))
  end.

Definition positionAt (document : TextDocument) (offset : Z) : Position :=
  let before :=
    filter (λ o, Z.of_nat o ≤ offset)%Z
           (ArrayUtils.getLineOffsets (getText document)) in
  at_ (Z.of_nat (length before) - 1)
      (offset - Z.of_nat (default 0 (last before))).

(** The parser's side, for a document given as the node its offsets
    resolve to. *)
Definition matchOffsetToDocument (offset : Z) (doc : ASTNode) : option ASTNode :=
  Some doc.

Definition getNodeFromOffset (currentDoc : ASTNode) (offset : Z)
    : option ASTNode :=
  Some currentDoc.

Definition service : YAMLHover unit :=
  {| schemaService := {| getSchemaForResource := λ _, Some tt |};
     shouldHover := true;
     documentationService :=
       {| getPropertyDocumentation := λ _ name, Some ("Property " +:+ name);
          getResourceDocumentation := λ _, Some "Resource" |} |}.

Definition noSchema : YAMLHover unit :=
  {| schemaService := {| getSchemaForResource := λ _, None |};
     shouldHover := true;
     documentationService := documentationService service |}.

Definition property (key : string) (v : JSValue) : option ChildNode :=
  Some {| child_type := "property"; key_location := Some (Key key);
          value := Some v |}.

(** The object under [Resources.Bucket], from offset 25 to [last], with its
    ancestors up to the root; [members] are its properties. *)
Definition bucket (last : Z) (members : list (option ChildNode))
    (whole : JSValue) : ASTNode :=
  let root :=
    mkNode "object" 0 last [] [property "Resources" (JObject [("Bucket", whole)])]
           None in
  let resourcesProperty :=
    mkNode "property" 0 last [] [] (Some root) in
  let resources :=
    mkNode "object" 13 last [Key "Resources"] [property "Bucket" whole]
           (Some resourcesProperty) in
  let bucketProperty :=
    mkNode "property" 13 last [Key "Resources"] [] (Some resources) in
  mkNode "object" 25 last [Key "Resources"; Key "Bucket"] members
         (Some bucketProperty).

(** A template whose bucket has one property; [keyText] is the key as it
    is written and [name] the key as it is parsed. *)
Definition propertyText (keyText : list N) : list N :=
  utf16 "Resources:" ++ [LF] ++ utf16 "  Bucket:" ++ [LF]
  ++ utf16 "    Type: AWS::S3::Bucket" ++ [LF]
  ++ utf16 "    Properties:" ++ [LF]
  ++ utf16 "      " ++ keyText ++ utf16 ": x".

Definition propertyDocument (keyText : list N) : TextDocument :=
  {| uri := "file:///template.yaml"; getText := propertyText keyText |}.

Definition propertyBucket (keyText : list N) (name : string) : ASTNode :=
  bucket (Z.of_nat (length (propertyText keyText)))
    [property "Type" (JString "AWS::S3::Bucket");
     property "Properties" (JObject [(name, JString "x")])]
    (JObject [("Type", JString "AWS::S3::Bucket");
              ("Properties", JObject [(name, JString "x")])]).

(** The scalar [x], the last character of the text. *)
Definition propertyValue (keyText : list N) (name : string) : ASTNode :=
  let last := Z.of_nat (length (propertyText keyText)) in
  let propertiesProperty :=
    mkNode "property" 51 last [Key "Resources"; Key "Bucket"] []
           (Some (propertyBucket keyText name)) in
  let properties :=
    mkNode "object" 69 last [Key "Resources"; Key "Bucket"; Key "Properties"]
           [property name (JString "x")] (Some propertiesProperty) in
  let namedProperty :=
    mkNode "property" 69 last [Key "Resources"; Key "Bucket"; Key "Properties"]
           [] (Some properties) in
  mkNode "string" (last - 1) last
         [Key "Resources"; Key "Bucket"; Key "Properties"; Key name] []
         (Some namedProperty).

Definition bucketName : list N := utf16 "BucketName".

(** The key written as two double quotes: the empty name. *)
Definition emptyName : list N := [0x22; 0x22]%N.

(** A template whose bucket has a number where its type should be. *)
Definition numberTypeDocument : TextDocument :=
  {| uri := "file:///template.yaml";
     getText := utf16 "Resources:" ++ [LF] ++ utf16 "  Bucket:" ++ [LF]
                ++ utf16 "    Type: 5" |}.

(** The scalar [5] at offset 31. *)
Definition numberTypeValue : ASTNode :=
  let typeProperty :=
    mkNode "property" 25 32 [Key "Resources"; Key "Bucket"] []
           (Some (bucket 32 [property "Type" (JNumber 5)]
                         (JObject [("Type", JNumber 5)]))) in
  mkNode "number" 31 32 [Key "Resources"; Key "Bucket"; Key "Type"] []
         (Some typeProperty).

(** A template whose bucket has a sequence where its type should be, with
    the one item the string [AWS::] written between double quotes (without
    them the item would be read as a mapping with the key [AWS:]); the key
    [Type] at offset 25. *)
Definition listTypeDocument : TextDocument :=
  {| uri := "file:///template.yaml";
     getText := utf16 "Resources:" ++ [LF] ++ utf16 "  Bucket:" ++ [LF]
                ++ utf16 "    Type:" ++ [LF]
                ++ utf16 "      - " ++ [0x22]%N ++ utf16 "AWS::" ++ [0x22]%N |}.

Definition listTypeKey : ASTNode :=
  let typeProperty :=
    mkNode "property" 25 46 [Key "Resources"; Key "Bucket"] []
           (Some (bucket 46 [property "Type" (JArray [JString "AWS::"])]
                         (JObject [("Type", JArray [JString "AWS::"])]))) in
  mkNode "string" 25 29 [Key "Resources"; Key "Bucket"; Key "Type"] []
         (Some typeProperty).

(** The value of [Outputs.Name] in a template without resources. *)
Definition outputDocument : TextDocument :=
  {| uri := "file:///template.yaml";
     getText := utf16 "Outputs:" ++ [LF] ++ utf16 "  Name: x" |}.

Definition outputValue : ASTNode :=
  let root :=
    mkNode "object" 0 18 []
           [property "Outputs" (JObject [("Name", JString "x")])] None in
  let outputsProperty := mkNode "property" 0 18 [] [] (Some root) in
  let outputs :=
    mkNode "object" 11 18 [Key "Outputs"] [property "Name" (JString "x")]
           (Some outputsProperty) in
  let nameProperty :=
    mkNode "property" 11 18 [Key "Outputs"] [] (Some outputs) in
  mkNode "string" 17 18 [Key "Outputs"; Key "Name"] [] (Some nameProperty).

(** A node [levels] sequences deep inside [under]. *)
Fixpoint buried (levels : nat) (under : ASTNode) : ASTNode :=
  match levels with
  | O => under
  | S levels' =>
      mkNode "array" (start under) (end_ under)
             (getPath under ++ [Key "Properties"]) []
             (Some (buried levels' under))
  end.

End HoverSamples.

(** * Properties of the server entry point *)

Section ArrayUtilsFacts.
Import Lsp ArrayUtils.

Lemma removeDuplicatesFrom_elem_of seen l d :
  d ∈ removeDuplicatesFrom seen l → d ∈ l ∧ diagnosticKey d ∉ seen.
Proof.
  revert seen. induction l as [|x l IH]; intros seen; simpl.
  - by rewrite elem_of_nil.
  - case_decide as Hx.
    + intros H. destruct (IH _ H) as [? ?]. split; [by right | done].
    + rewrite elem_of_cons. intros [-> | H].
      * split; [by left | done].
      * destruct (IH _ H) as [? Hk]. split; [by right |].
        intros Hs. by apply Hk, elem_of_union_r.
Qed.

Lemma removeDuplicatesObj_elem_of l d :
  d ∈ removeDuplicatesObj l → d ∈ l.
Proof. intros H. by destruct (removeDuplicatesFrom_elem_of _ _ _ H). Qed.

Lemma removeDuplicatesFrom_NoDup seen l :
  NoDup (diagnosticKey <$> removeDuplicatesFrom seen l).
Proof.
  revert seen. induction l as [|x l IH]; intros seen; simpl.
  - constructor.
  - case_decide as Hx; [apply IH |].
    rewrite fmap_cons. constructor; [| apply IH].
    rewrite list_elem_of_fmap. intros (d & Hk & Hd).
    destruct (removeDuplicatesFrom_elem_of _ _ _ Hd) as [_ Hfresh].
    apply Hfresh, elem_of_union_l, elem_of_singleton. by rewrite Hk.
Qed.

Lemma removeDuplicatesFrom_fixed seen l :
  NoDup (diagnosticKey <$> l) →
  (∀ d, d ∈ l → diagnosticKey d ∉ seen) →
  removeDuplicatesFrom seen l = l.
Proof.
  revert seen. induction l as [|x l IH]; intros seen Hnd Hseen; simpl; [done |].
  rewrite fmap_cons in Hnd. apply NoDup_cons in Hnd as [Hx Hnd].
  case_decide as Hin.
  - exfalso. apply (Hseen x); [by left | done].
  - f_equal. apply IH; [done |].
    intros d Hd. rewrite elem_of_union, elem_of_singleton.
    intros [Heq | Hs].
    + apply Hx. rewrite <- Heq. by apply list_elem_of_fmap_2.
    + apply (Hseen d); [by right | done].
Qed.

End ArrayUtilsFacts.

Section Validation.
Import Js Lsp Server.

Context {YAMLDocument : Type}.
Variable isSupportedDocument : list N → bool.
Variable parseYAML : list N → list string → YAMLDocument.
Variable doValidation : TextDocument → YAMLDocument → option (list Diagnostic).

Lemma setSeverity_fixed d : severity d = Some 1%Z → setSeverity d = d.
Proof. destruct d as [r m s src]; simpl. by intros ->. Qed.

(** Every run publishes at most once, and for the document's own URI. *)
Lemma validateTextDocument_sends removeDuplicatesObj textDocument target ds :
  SendDiagnostics target ds
    ∈ validateTextDocument isSupportedDocument parseYAML doValidation
        removeDuplicatesObj textDocument →
  ∃ td, textDocument = Some td ∧ target = uri td ∧
    (ds = [] ∨
     ∃ results, doValidation td (parseYAML (getText td) customTags) = Some results
       ∧ ds = removeDuplicatesObj (setSeverity <$> results)).
Proof.
  unfold validateTextDocument. destruct textDocument as [td|]; [| by rewrite elem_of_nil].
  intros H. exists td. split; [done |].
  case_decide.
  { apply list_elem_of_singleton in H. injection H as -> ->. auto. }
  destruct (isSupportedDocument (getText td)); simpl in H.
  - rewrite !elem_of_cons in H. destruct H as [H | [H | H]]; [done | done |].
    destruct (doValidation td _) as [results|]; [| by rewrite elem_of_nil in H].
    apply list_elem_of_singleton in H. injection H as -> ->. eauto.
  - apply list_elem_of_singleton in H. injection H as -> ->. auto.
Qed.

(** C1: whatever the validation returned, every diagnostic of a list that
    [validateTextDocument] publishes has severity 1 (error); the only thing
    asked of the duplicate filter is that it hands back diagnostics it was
    given. *)
Theorem published_diagnostics_are_errors
    (removeDuplicatesObj : list Diagnostic → list Diagnostic)
    (textDocument : option TextDocument) (target : string)
    (diagnostics : list Diagnostic) :
  (∀ l d, d ∈ removeDuplicatesObj l → d ∈ l) →
  SendDiagnostics target diagnostics
    ∈ validateTextDocument isSupportedDocument parseYAML doValidation
        removeDuplicatesObj textDocument →
  Forall (λ d, severity d = Some 1%Z) diagnostics.
Proof.
  intros Hsub Hsent.
  apply validateTextDocument_sends in Hsent
    as (td & _ & _ & [-> | (results & _ & ->)]); [constructor |].
  apply Forall_forall. intros d Hd%Hsub.
  apply list_elem_of_fmap in Hd as (d' & -> & _). done.
Qed.

(** C2: the list that [validateTextDocument] publishes holds no two
    diagnostics with the same range and the same message; passing the
    published list through the same normalisation again leaves it as it is,
    and a second run on the unchanged document leaves the editor showing
    what the first run left. *)
Theorem published_diagnostics_are_distinct
    (textDocument : option TextDocument) (target : string)
    (diagnostics : list Diagnostic) :
  let run := validateTextDocument isSupportedDocument parseYAML doValidation
               ArrayUtils.removeDuplicatesObj textDocument in
  SendDiagnostics target diagnostics ∈ run →
  (∀ i j d d', diagnostics !! i = Some d → diagnostics !! j = Some d' →
     range d = range d' → message d = message d' → i = j)
  ∧ ArrayUtils.removeDuplicatesObj (setSeverity <$> diagnostics) = diagnostics
  ∧ ∀ shown, editorAfter (editorAfter shown run) run = editorAfter shown run.
Proof.
  intros run Hsent.
  assert (Hnd : NoDup (ArrayUtils.diagnosticKey <$> diagnostics)
                ∧ Forall (λ d, severity d = Some 1%Z) diagnostics).
  { apply validateTextDocument_sends in Hsent
      as (td & _ & _ & [-> | (results & _ & ->)]); [split; constructor |].
    split; [apply removeDuplicatesFrom_NoDup |].
    apply Forall_forall. intros d Hd%removeDuplicatesObj_elem_of.
    apply list_elem_of_fmap in Hd as (d' & -> & _). done. }
  destruct Hnd as [Hnd Hsev]. split; [| split].
  - intros i j d d' Hi Hj Hr Hm.
    apply (NoDup_lookup _ i j (ArrayUtils.diagnosticKey d) Hnd).
    + by rewrite list_lookup_fmap, Hi.
    + rewrite list_lookup_fmap, Hj. simpl. unfold ArrayUtils.diagnosticKey.
      by rewrite Hr, Hm.
  - assert (Hfix : setSeverity <$> diagnostics = diagnostics).
    { clear Hnd Hsent. induction Hsev as [|d l Hd _ IH]; [done |].
      rewrite fmap_cons, IH, setSeverity_fixed; done. }
    rewrite Hfix. apply removeDuplicatesFrom_fixed; [done |].
    intros d _. apply not_elem_of_empty.
  - intros shown. subst run. unfold validateTextDocument.
    destruct textDocument as [td|]; [| done].
    case_decide; [apply insert_insert_eq |].
    destruct (isSupportedDocument (getText td)); simpl; [| apply insert_insert_eq].
    destruct (doValidation td _); simpl; [apply insert_insert_eq | done].
Qed.

(** C10: for a document whose text is empty or is not a supported template,
    [validateTextDocument] does one thing only, it publishes the empty list
    for the document's URI: nothing is parsed, nothing is validated, and
    whatever the editor showed for that URI before is cleared. *)
Theorem unsupported_document_clears_diagnostics
    (removeDuplicatesObj : list Diagnostic → list Diagnostic)
    (textDocument : TextDocument) :
  getText textDocument = [] ∨ isSupportedDocument (getText textDocument) = false →
  let run := validateTextDocument isSupportedDocument parseYAML doValidation
               removeDuplicatesObj (Some textDocument) in
  run = [SendDiagnostics (uri textDocument) []]
  ∧ ∀ shown, editorAfter shown run !! uri textDocument = Some [].
Proof.
  intros Hdoc run.
  assert (Hrun : run = [SendDiagnostics (uri textDocument) []]).
  { subst run. unfold validateTextDocument. destruct Hdoc as [Hempty | Hno].
    - rewrite Hempty. by rewrite decide_True.
    - rewrite Hno. by case_decide. }
  split; [done |]. intros shown. rewrite Hrun. simpl. apply lookup_insert_eq.
Qed.

End Validation.

Section Completion.
Import Js Lsp Server.

Variable getLineOffsets : list N → list nat.

Lemma stripEOL_visible (visible eol rest : list N) :
  Forall (λ c, is_EOL c = true) eol →
  (∀ c, last visible = Some c → is_EOL c = false) →
  stripEOL (visible ++ eol ++ rest) (length (visible ++ eol)) = length visible.
Proof.
  intros Heol Hlast. revert rest.
  induction eol as [|c eol IH] using rev_ind; intros rest.
  - rewrite app_nil_r. simpl.
    destruct visible as [|v visible _] using rev_ind; [done |].
    replace (length (visible ++ [v])) with (S (length visible))
      by (rewrite length_app; simpl; lia).
    replace ((visible ++ [v]) ++ rest) with (visible ++ v :: rest)
      by (by rewrite <- (assoc_L (++))).
    simpl. rewrite list_lookup_middle by done.
    rewrite Hlast; [done |]. apply last_snoc.
  - rewrite Forall_app, Forall_singleton in Heol. destruct Heol as [Heol Hc].
    replace (length (visible ++ eol ++ [c])) with (S (length (visible ++ eol)))
      by (rewrite !length_app; simpl; lia).
    replace (visible ++ (eol ++ [c]) ++ rest) with ((visible ++ eol) ++ c :: rest)
      by (by rewrite <- !(assoc_L (++))).
    simpl. rewrite list_lookup_middle by done. rewrite Hc.
    rewrite <- (assoc_L (++)). by apply IH.
Qed.

Lemma substring_middle (before middle after : list N) :
  substring (before ++ middle ++ after) (length before)
            (length (before ++ middle)) = middle.
Proof.
  unfold substring. rewrite !length_app.
  replace (length before `min` _) with (length before) by lia.
  replace ((length before + length middle) `min` _)
    with (length before + length middle) by lia.
  replace (length before `max` _ - length before `min` _)
    with (length middle) by lia.
  replace (length before `min` (length before + length middle))
    with (length before) by lia.
  rewrite drop_app_length. by rewrite take_app_length.
Qed.

Lemma substring_front (front after : list N) :
  substring (front ++ after) 0 (length front) = front.
Proof. apply (substring_middle [] front after). Qed.

(** C3: when the cursor's line, the text [body] between the offset the
    line offsets give for the cursor's line and the terminator [eol] that
    ends it, contains the key delimiter [:], [completionHelper] hands back
    the document text as it is, and a position on the same line whose
    character is one less than the one it was given. *)
Theorem completionHelper_keeps_delimited_line
    (target : string) (before body eol rest : list N) (position : Position) :
  let text := before ++ body ++ eol ++ rest in
  let document := {| uri := target; getText := text |} in
  let fix_ := completionHelper getLineOffsets document position in
  index (getLineOffsets text) (line position) = Some (length before) →
  orElse (index (getLineOffsets text) (line position + 1)%Z) (length text)
  = length (before ++ body ++ eol) →
  Forall (λ c, is_EOL c = true) eol →
  (∀ c, last (before ++ body) = Some c → is_EOL c = false) →
  0x3a%N ∈ body →
  newText fix_ = text
  ∧ character (newPosition fix_) = (character position - 1)%Z
  ∧ line (newPosition fix_) = line position.
Proof.
  intros text document fix_ Hstart Hnext Heol Hlast Hcolon.
  assert (Hline : textLine getLineOffsets document position = body).
  { unfold textLine, lineEnd, lineStart, nextLine. simpl. fold text.
    rewrite Hstart, Hnext. simpl. subst text.
    rewrite !(assoc_L (++) before body).
    rewrite stripEOL_visible by done.
    rewrite <- (assoc_L (++) before body). apply substring_middle. }
  subst fix_. unfold completionHelper, lacks. rewrite Hline.
  rewrite bool_decide_eq_false_2; [done |]. by intros Hno.
Qed.

(** C4, as the code has it: on a line without [:], whose visible content
    [body] the end-of-line strip does not run back past, [completionHelper]
    keeps the text up to the end of [body], then inserts [holder:] when the
    trimmed line is empty, [holder:] (after a space unless the line ends
    with one) when it is the sequence marker, and [:] otherwise, then puts
    CR LF where the line's own terminator [eol] was, then keeps the text
    from the start of the next line; the position is handed back as it
    came. *)
Theorem completionHelper_repairs_line
    (target : string) (before body eol rest : list N) (position : Position) :
  let document :=
    {| uri := target; getText := before ++ body ++ eol ++ rest |} in
  let fix_ := completionHelper getLineOffsets document position in
  lineStart getLineOffsets document position = Some (length before) →
  nextLine getLineOffsets document position = length (before ++ body ++ eol) →
  Forall (λ c, is_EOL c = true) eol →
  (∀ c, last (before ++ body) = Some c → is_EOL c = false) →
  0x3a%N ∉ body →
  newPosition fix_ = position
  ∧ (trim body = [] →
     newText fix_ = before ++ body ++ utf16 "holder:" ++ [CR; LF] ++ rest)
  ∧ (trim body = utf16 "-" →
     newText fix_ =
       before ++ body ++ (if endsWith body 0x20 then [] else utf16 " ")
       ++ utf16 "holder:" ++ [CR; LF] ++ rest)
  ∧ (trim body ≠ [] → trim body ≠ utf16 "-" →
     newText fix_ = before ++ body ++ utf16 ":" ++ [CR; LF] ++ rest).
Proof.
  intros document fix_ Hstart Hnext Heol Hlast Hcolon.
  assert (Hline : textLine getLineOffsets document position = body).
  { unfold textLine, lineEnd. rewrite Hstart, Hnext. simpl.
    rewrite !(assoc_L (++) before body).
    rewrite stripEOL_visible by done.
    rewrite <- (assoc_L (++) before body). apply substring_middle. }
  assert (Hup : substring (getText document) 0
                  (toIndex ((λ s, s + length body) <$> Some (length before)))
                = before ++ body).
  { simpl. rewrite <- length_app, (assoc_L (++) before body).
    apply substring_front. }
  assert (Hrest : substr (getText document) (length (before ++ body ++ eol))
                  = rest).
  { unfold substr. simpl. rewrite !(assoc_L (++)).
    by rewrite drop_app_length. }
  subst fix_. unfold completionHelper.
  rewrite Hline, Hstart, Hnext, Hup, Hrest.
  unfold lacks. rewrite bool_decide_eq_true_2 by done.
  split; [by destruct (_ || _) |]. split; [| split].
  - intros ->. simpl. by rewrite <- (assoc_L (++)).
  - intros ->. simpl. rewrite <- !(assoc_L (++)). by destruct (endsWith body _).
  - intros Hne Hnm.
    destruct (trim body) as [|c [|c' t]] eqn:Ht; [done | |];
      simpl; try by rewrite <- (assoc_L (++)).
    rewrite bool_decide_eq_false_2; [by rewrite <- (assoc_L (++)) |].
    intros [= ->]. by apply Hnm.
Qed.

End Completion.

Section ServerInstances.
Import Js Lsp Server Samples.
(** A warning reported twice and a diagnostic without severity. *)
Lemma published_diagnostics_are_errors_witness :
  Forall (λ d, severity d = Some 1%Z)
    (ArrayUtils.removeDuplicatesObj (setSeverity <$> reported)).
Proof.
  apply (published_diagnostics_are_errors (λ _, true) (λ _ _, tt)
           (λ _ _, Some reported) ArrayUtils.removeDuplicatesObj
           (Some template) (uri template)).
  - exact removeDuplicatesObj_elem_of.
  - do 2 apply list_elem_of_further. apply list_elem_of_here.
Defined.

(** The same report, published once per range and message. *)
Lemma published_diagnostics_are_distinct_witness :
  let run := validateTextDocument (λ _, true) (λ _ _, tt)
               (λ _ _, Some reported) ArrayUtils.removeDuplicatesObj
               (Some template) in
  let diagnostics := ArrayUtils.removeDuplicatesObj (setSeverity <$> reported) in
  (∀ i j d d', diagnostics !! i = Some d → diagnostics !! j = Some d' →
     range d = range d' → message d = message d' → i = j)
  ∧ ArrayUtils.removeDuplicatesObj (setSeverity <$> diagnostics) = diagnostics
  ∧ ∀ shown, editorAfter (editorAfter shown run) run = editorAfter shown run.
Proof.
  apply (published_diagnostics_are_distinct (λ _, true) (λ _ _, tt)
           (λ _ _, Some reported) (Some template) (uri template)).
  do 2 apply list_elem_of_further. apply list_elem_of_here.
Defined.

Example reported_twice_published_once :
  ArrayUtils.removeDuplicatesObj (setSeverity <$> reported)
  = [missingType 1; setSeverity badValue].
Proof. vm_compute. reflexivity. Qed.

(** A document that no classifier recognises. *)
Lemma unsupported_document_clears_diagnostics_witness :
  let run := validateTextDocument (λ _, false) (λ _ _, tt)
               (λ _ _, Some reported) ArrayUtils.removeDuplicatesObj
               (Some template) in
  run = [SendDiagnostics (uri template) []]
  ∧ ∀ shown, editorAfter shown run !! uri template = Some [].
Proof.
  apply (unsupported_document_clears_diagnostics (λ _, false) (λ _ _, tt)
           (λ _ _, Some reported) ArrayUtils.removeDuplicatesObj template).
  right. reflexivity.
Defined.

(** The cursor after [a: ] on the first line of a mapping. *)
Lemma completionHelper_keeps_delimited_line_witness :
  let text := [] ++ utf16 "a: 1" ++ [LF] ++ utf16 "b" in
  let fix_ :=
    completionHelper ArrayUtils.getLineOffsets
      {| uri := "file:///template.yaml"; getText := text |} (at_ 0 3) in
  newText fix_ = text
  ∧ character (newPosition fix_) = (3 - 1)%Z
  ∧ line (newPosition fix_) = 0%Z.
Proof.
  apply (completionHelper_keeps_delimited_line ArrayUtils.getLineOffsets
           "file:///template.yaml" [] (utf16 "a: 1") [LF] (utf16 "b")
           (at_ 0 3)).
  - reflexivity.
  - reflexivity.
  - repeat constructor.
  - intros c [= <-]. reflexivity.
  - apply (bool_decide_unpack _). vm_compute. exact I.
Defined.

(** On the second line of a text the helper reads the second line: the
    text comes back as it is and the column goes from 4 to 3. *)
Example completionHelper_on_second_line :
  completionHelper ArrayUtils.getLineOffsets
    {| uri := "file:///template.yaml";
       getText := utf16 "a" ++ [LF] ++ utf16 "b: 1" |} (at_ 1 4)
  = {| newText := utf16 "a" ++ [LF] ++ utf16 "b: 1"; newPosition := at_ 1 3 |}.
Proof. reflexivity. Qed.

(** The cursor at the end of the partial key [b] on the second line. *)
Lemma completionHelper_repairs_line_witness :
  let document :=
    {| uri := "file:///template.yaml";
       getText := (utf16 "a:" ++ [LF]) ++ utf16 "  b" ++ [LF] ++ utf16 "c: 1" |} in
  let fix_ := completionHelper ArrayUtils.getLineOffsets document (at_ 1 3) in
  newPosition fix_ = at_ 1 3
  ∧ (trim (utf16 "  b") = [] →
     newText fix_ = (utf16 "a:" ++ [LF]) ++ utf16 "  b" ++ utf16 "holder:"
                    ++ [CR; LF] ++ utf16 "c: 1")
  ∧ (trim (utf16 "  b") = utf16 "-" →
     newText fix_ =
       (utf16 "a:" ++ [LF]) ++ utf16 "  b"
       ++ (if endsWith (utf16 "  b") 0x20 then [] else utf16 " ")
       ++ utf16 "holder:" ++ [CR; LF] ++ utf16 "c: 1")
  ∧ (trim (utf16 "  b") ≠ [] → trim (utf16 "  b") ≠ utf16 "-" →
     newText fix_ = (utf16 "a:" ++ [LF]) ++ utf16 "  b" ++ utf16 ":"
                    ++ [CR; LF] ++ utf16 "c: 1").
Proof.
  apply (completionHelper_repairs_line ArrayUtils.getLineOffsets
           "file:///template.yaml" (utf16 "a:" ++ [LF]) (utf16 "  b") [LF]
           (utf16 "c: 1") (at_ 1 3)).
  - reflexivity.
  - reflexivity.
  - repeat constructor.
  - intros c [= <-]. reflexivity.
  - apply (bool_decide_unpack _). vm_compute. exact I.
Defined.

(** The claim of C4 fails on the partial key [key] followed by a line
    [b: 1]: the line has no [:], its trimmed content is neither empty nor
    the sequence marker, and the result, [key:] CR LF [b: 1], is not the
    text with a [:] inserted at any place: the line feed that ended the
    line has become CR LF. *)
Lemma completionHelper_not_a_plain_splice :
  let fix_ := completionHelper ArrayUtils.getLineOffsets partialKey (at_ 0 3) in
  (0x3a%N ∉ textLine ArrayUtils.getLineOffsets partialKey (at_ 0 3))
  ∧ trim (textLine ArrayUtils.getLineOffsets partialKey (at_ 0 3)) = utf16 "key"
  ∧ newText fix_ = utf16 "key:" ++ [CR; LF] ++ utf16 "b: 1"
  ∧ ¬ ∃ p, newText fix_
           = take p (getText partialKey) ++ utf16 ":" ++ drop p (getText partialKey).
Proof.
  split; [apply (bool_decide_unpack _); vm_compute; exact I |].
  split; [reflexivity |]. split; [reflexivity |].
  intros [p Hp]. apply (f_equal length) in Hp.
  rewrite !length_app, length_take, length_drop in Hp.
  change (length (newText _)) with 10 in Hp.
  change (length (getText partialKey)) with 8 in Hp.
  change (length (utf16 ":")) with 1 in Hp. lia.
Qed.
(** On an empty line that follows a terminator the strip loop runs back
    past the start of the line, [substring] swaps its arguments, and the
    text kept before the placeholder overlaps the text kept after it: the
    [b] of the last line comes out twice. *)
Example completionHelper_on_empty_line :
  newText (completionHelper ArrayUtils.getLineOffsets
             {| uri := "file:///template.yaml";
                getText := utf16 "a" ++ [LF; LF; LF] ++ utf16 "b" |}
             (at_ 2 0))
  = utf16 "a" ++ [LF; LF; LF] ++ utf16 "bholder:" ++ [CR; LF] ++ utf16 "b".
Proof. reflexivity. Qed.

End ServerInstances.

(** * Properties of the hover service *)

Section HoverFacts.
Import Lsp Hover.

Lemma findResourceType_found children v :
  findResourceType children = Returned (Some v) →
  ∃ property, Some property ∈ children
    ∧ child_type property = "property"
    ∧ key_location property = Some (Key "Type")
    ∧ value property = Some v
    ∧ truthy v = true
    ∧ indexOfAWS_is0 v = Returned true.
Proof.
  induction children as [|child rest IH]; simpl; [done |].
  assert (Hrest : findResourceType rest = Returned (Some v) →
    ∃ property, Some property ∈ child :: rest
      ∧ child_type property = "property"
      ∧ key_location property = Some (Key "Type")
      ∧ value property = Some v ∧ truthy v = true
      ∧ indexOfAWS_is0 v = Returned true).
  { intros (p & Hin & H)%IH. exists p. split; [by right | done]. }
  destruct child as [property|]; [| done].
  destruct (String.eqb (child_type property) "property") eqn:Hty; [| done].
  case_bool_decide as Hkey; simpl; [| done].
  destruct (value property) as [w|] eqn:Hval; [| done].
  destruct (truthy w) eqn:Htruthy; [| done].
  destruct (indexOfAWS_is0 w) as [[|]|e] eqn:Hidx; simpl; [| done | done].
  intros [= ->]. exists property. apply String.eqb_eq in Hty.
  split; [by left | done].
Qed.

Lemma resourceNameOf_found node v :
  resourceNameOf node = Returned (Some v) → declaresType node v.
Proof.
  unfold resourceNameOf, declaresType.
  destruct (String.eqb (type node) "object") eqn:Hty; simpl; [| done].
  intros H%findResourceType_found. by apply String.eqb_eq in Hty.
Qed.

Lemma searchAncestors_found budget current v :
  searchAncestors budget current = Returned (Some v) →
  ∃ k up node, current = Some up ∧ k < budget ∧ ancestor k up = Some node
    ∧ declaresType node v.
Proof.
  revert current. induction budget as [|budget IH]; intros [up|]; simpl;
    try done.
  destruct (resourceNameOf up) as [[w|]|e] eqn:Hup; simpl; try done.
  - intros [= ->]. exists 0, up, up.
    split; [done |]. split; [lia |]. split; [done |].
    by apply resourceNameOf_found.
  - intros (k & up' & node & Hp & Hk & Hanc & Hdecl)%IH.
    exists (S k), up, node. split; [done |]. split; [lia |].
    split; [| done]. simpl. by rewrite Hp.
Qed.

(** What a successful search tells: the path starts with [Resources] and
    is longer than one segment, and the value comes from the node itself or
    one of its first seven ancestors, an object with a [Type] property whose
    value is truthy and passed the [indexOf] test. *)
Lemma getResourceName_found node v :
  getResourceName node = Returned (Some v) →
  getPath node !! 0 = Some (Key "Resources")
  ∧ 1 < length (getPath node)
  ∧ ∃ k up, k ≤ maxDepth ∧ ancestor k node = Some up ∧ declaresType up v.
Proof.
  unfold getResourceName.
  case_bool_decide as Hhead; cbn [andb]; [| done].
  case_bool_decide as Hlen; cbn [andb]; [| done].
  intros H. split; [done |]. split; [done |].
  unfold mbind, Outcome_bind in H.
  destruct (resourceNameOf node) as [[w|]|e] eqn:Hnode; try done.
  - injection H as ->. exists 0, node. split; [lia |]. split; [done |].
    by apply resourceNameOf_found.
  - apply searchAncestors_found in H
      as (k & up & found & Hp & Hk & Hanc & Hdecl).
    exists (S k), found. split; [lia |]. split; [| done].
    simpl. by rewrite Hp.
Qed.

Lemma getResourceName_outside_Resources node :
  getPath node !! 0 ≠ Some (Key "Resources") ∨ length (getPath node) ≤ 1 →
  getResourceName node = Returned None.
Proof.
  unfold getResourceName. intros [H | H].
  - by rewrite bool_decide_eq_false_2.
  - rewrite (bool_decide_eq_false_2 (1 < _)) by lia. by rewrite andb_false_r.
Qed.

(** The search can only throw on a value that is not a string: among
    children whose values are strings or missing it returns. *)
Lemma findResourceType_returns children :
  Forall (λ child, ∀ property v, child = Some property →
            value property = Some v → ∃ s, v = JString s) children →
  ∃ found, findResourceType children = Returned found.
Proof.
  induction 1 as [|child rest Hchild _ IH]; simpl; [by eexists |].
  destruct child as [property|]; [| done].
  destruct (_ && _); [| done].
  destruct (value property) as [v|] eqn:Hv; [| done].
  destruct (Hchild property v eq_refl Hv) as [s ->].
  destruct (truthy _); [| done]. simpl.
  destruct (String.prefix _ _); [by eexists | done].
Qed.

(** A string that passed the test begins with [AWS::]. *)
Lemma declaresType_string node s :
  declaresType node (JString s) → String.prefix "AWS::" s = true.
Proof. intros (_ & p & _ & _ & _ & _ & _ & [= H]). done. Qed.

End HoverFacts.

Section HoverService.
Import Lsp Hover.

Context {Schema YAMLDocument SingleYAMLDocument : Type}.
Variable offsetAt : TextDocument → Position → Z.
Variable positionAt : TextDocument → Z → Position.
Variable matchOffsetToDocument : Z → YAMLDocument → option SingleYAMLDocument.
Variable getNodeFromOffset : SingleYAMLDocument → Z → option ASTNode.

Local Ltac absent := split; [reflexivity | repeat constructor].

Local Abbreviation doHover :=
  (doHover offsetAt positionAt matchOffsetToDocument getNodeFromOffset).

(** C5: when the node resolved at the offset is an object or an array and
    the offset is greater than [start + 1] and less than [end - 1],
    [doHover] returns absent, and asks for no documentation. *)
Theorem hover_inside_container_is_absent
    (self : YAMLHover Schema) (document : TextDocument) (position : Position)
    (doc : YAMLDocument) (currentDoc : SingleYAMLDocument) (node : ASTNode) :
  let offset := offsetAt document position in
  matchOffsetToDocument offset doc = Some currentDoc →
  getNodeFromOffset currentDoc offset = Some node →
  type node = "object" ∨ type node = "array" →
  (start node + 1 < offset)%Z →
  (offset < end_ node - 1)%Z →
  (doHover self (Some document) position doc).2 = Returned None
  ∧ Forall (λ call, call = GetSchemaForResource (uri document))
       (doHover self (Some document) position doc).1.
Proof.
  intros offset Hdoc Hnode Htype Hlo Hhi. unfold Hover.doHover.
  destruct (shouldHover self); simpl; [| absent].
  destruct (getSchemaForResource _ _); simpl; [| absent].
  fold offset. rewrite Hdoc, Hnode.
  assert (Hin : insideContainer node offset = true).
  { unfold insideContainer.
    rewrite !bool_decide_eq_true_2 by done.
    destruct Htype as [-> | ->]; reflexivity. }
  rewrite Hin. absent.
Qed.

(** C9: when the schema service has no schema for the document's URI,
    [doHover] returns absent: it does not throw, it builds no hover and it
    asks for no documentation. *)
Theorem hover_without_schema_is_absent
    (self : YAMLHover Schema) (document : TextDocument) (position : Position)
    (doc : YAMLDocument) :
  getSchemaForResource (schemaService self) (uri document) = None →
  (doHover self (Some document) position doc).2 = Returned None
  ∧ Forall (λ call, call = GetSchemaForResource (uri document))
       (doHover self (Some document) position doc).1.
Proof.
  intros Hnone. unfold Hover.doHover.
  destruct (shouldHover self); simpl; [| absent].
  rewrite Hnone. absent.
Qed.

(** Once the node is resolved and is not the inside of a container, the
    hover is that of the node, after the schema request. *)
Lemma doHover_resolved
    (self : YAMLHover Schema) (document : TextDocument) (position : Position)
    (doc : YAMLDocument) (currentDoc : SingleYAMLDocument) (node : ASTNode)
    (schema : Schema) :
  let offset := offsetAt document position in
  shouldHover self = true →
  getSchemaForResource (schemaService self) (uri document) = Some schema →
  matchOffsetToDocument offset doc = Some currentDoc →
  getNodeFromOffset currentDoc offset = Some node →
  insideContainer node offset = false →
  doHover self (Some document) position doc
  = (GetSchemaForResource (uri document)
       :: (describeNode positionAt self document node).1,
     (describeNode positionAt self document node).2).
Proof.
  intros offset Hon Hschema Hdoc Hnode Hout. unfold Hover.doHover.
  rewrite Hon, Hschema. simpl. fold offset. rewrite Hdoc, Hnode, Hout.
  by destruct (describeNode _ _ _ _).
Qed.

(** C6, as the code has it: for a resolved node with a determined resource
    type, [doHover] asks for the documentation of a property, keyed by the
    resource type and the fourth path segment as a string, when the path
    has at least four segments, the first [Resources], the third
    [Properties], and the fourth is truthy (a non-empty key or a non-zero
    index); in every other case it asks for the documentation of the
    resource type alone. *)
Theorem hover_documentation_request
    (self : YAMLHover Schema) (document : TextDocument) (position : Position)
    (doc : YAMLDocument) (currentDoc : SingleYAMLDocument) (node : ASTNode)
    (schema : Schema) (resourceType : JSValue) :
  let offset := offsetAt document position in
  let calls := (doHover self (Some document) position doc).1 in
  shouldHover self = true →
  getSchemaForResource (schemaService self) (uri document) = Some schema →
  matchOffsetToDocument offset doc = Some currentDoc →
  getNodeFromOffset currentDoc offset = Some node →
  insideContainer node offset = false →
  getResourceName node = Returned (Some resourceType) →
  (∀ name,
     4 ≤ length (getPath node) →
     getPath node !! 0 = Some (Key "Resources") →
     getPath node !! 2 = Some (Key "Properties") →
     getPath node !! 3 = Some name →
     segmentTruthy name = true →
     calls = [GetSchemaForResource (uri document);
              GetPropertyDocumentation resourceType (String_ name)])
  ∧ (length (getPath node) < 4
     ∨ getPath node !! 2 ≠ Some (Key "Properties")
     ∨ (∃ name, getPath node !! 3 = Some name ∧ segmentTruthy name = false) →
     calls = [GetSchemaForResource (uri document);
              GetResourceDocumentation resourceType]).
Proof.
  intros offset calls Hon Hschema Hdoc Hnode Hout Htype. subst calls.
  rewrite (doHover_resolved _ _ _ _ _ _ _ Hon Hschema Hdoc Hnode Hout).
  destruct (getResourceName_found _ _ Htype)
    as (Hhead & Hlen & k & up & _ & _ & Hdecl).
  destruct Hdecl as (_ & declared & _ & _ & _ & _ & Htruthy & _).
  unfold describeNode. rewrite bool_decide_eq_true_2 by lia.
  rewrite Htype. unfold getPropertyName. simpl. rewrite Htruthy.
  split.
  - intros name H4 H0 H2 H3 Hname.
    rewrite !bool_decide_eq_true_2 by done. simpl.
    rewrite H3, Hname. simpl.
    by destruct (getPropertyDocumentation _ _ _) as [text|];
      [destruct (negb (String.eqb text "")) |].
  - intros Hother.
    destruct (bool_decide (4 ≤ length (getPath node))) eqn:H4; simpl;
      [destruct (bool_decide (getPath node !! 0 = Some (Key "Resources")));
       simpl;
       [destruct (bool_decide (getPath node !! 2 = Some (Key "Properties")))
          eqn:H2; simpl |] |].
    + apply bool_decide_eq_true_1 in H4, H2.
      destruct Hother as [Hshort | [Hnot | (name & H3 & Hname)]];
        [lia | done |].
      rewrite H3, Hname. simpl.
      by destruct (getResourceDocumentation _ _) as [text|];
        [destruct (negb (String.eqb text "")) |].
    + by destruct (getResourceDocumentation _ _) as [text|];
        [destruct (negb (String.eqb text "")) |].
    + by destruct (getResourceDocumentation _ _) as [text|];
        [destruct (negb (String.eqb text "")) |].
    + by destruct (getResourceDocumentation _ _) as [text|];
        [destruct (negb (String.eqb text "")) |].
Qed.

End HoverService.

Section HoverInstances.
Import Js Lsp Hover Samples HoverSamples.

Local Abbreviation hover :=
  (doHover offsetAt positionAt matchOffsetToDocument getNodeFromOffset).

(** The indentation before [Properties:], inside the bucket's object. *)
Lemma hover_inside_container_is_absent_witness :
  let document := propertyDocument bucketName in
  let node := propertyBucket bucketName "BucketName" in
  (hover service (Some document) (at_ 3 1) node).2 = Returned None
  ∧ Forall (λ call, call = GetSchemaForResource (uri document))
      (hover service (Some document) (at_ 3 1) node).1.
Proof.
  apply (hover_inside_container_is_absent offsetAt positionAt
           matchOffsetToDocument getNodeFromOffset service
           (propertyDocument bucketName) (at_ 3 1)
           (propertyBucket bucketName "BucketName")
           (propertyBucket bucketName "BucketName")
           (propertyBucket bucketName "BucketName")).
  - reflexivity.
  - reflexivity.
  - left. reflexivity.
  - vm_compute. reflexivity.
  - vm_compute. reflexivity.
Defined.

(** The value of [BucketName] when no schema is bound to the document. *)
Lemma hover_without_schema_is_absent_witness :
  let document := propertyDocument bucketName in
  let node := propertyValue bucketName "BucketName" in
  (hover noSchema (Some document) (at_ 4 18) node).2 = Returned None
  ∧ Forall (λ call, call = GetSchemaForResource (uri document))
      (hover noSchema (Some document) (at_ 4 18) node).1.
Proof.
  apply (hover_without_schema_is_absent offsetAt positionAt
           matchOffsetToDocument getNodeFromOffset noSchema
           (propertyDocument bucketName) (at_ 4 18)
           (propertyValue bucketName "BucketName")).
  reflexivity.
Defined.

(** The claim of C6 fails on a property whose name is empty: the path has
    four segments, the first [Resources] and the third [Properties], the
    resource type is determined, and [doHover] asks for the documentation
    of the resource type, not of the property. *)
Lemma hover_empty_property_name_asks_resource :
  let node := propertyValue emptyName "" in
  let path := getPath node in
  let calls :=
    (hover service (Some (propertyDocument emptyName)) (at_ 4 10) node).1 in
  offsetAt (propertyDocument emptyName) (at_ 4 10) = start node
  ∧ 4 ≤ length path
  ∧ path !! 0 = Some (Key "Resources")
  ∧ path !! 2 = Some (Key "Properties")
  ∧ path !! 3 = Some (Key "")
  ∧ getResourceName node = Returned (Some (JString "AWS::S3::Bucket"))
  ∧ calls = [GetSchemaForResource "file:///template.yaml";
             GetResourceDocumentation (JString "AWS::S3::Bucket")]
  ∧ calls ≠ [GetSchemaForResource "file:///template.yaml";
             GetPropertyDocumentation (JString "AWS::S3::Bucket") ""].
Proof.
  split; [reflexivity |]. split; [vm_compute; lia |].
  do 5 (split; [reflexivity |]). discriminate.
Qed.

(** The value of [BucketName] under [Resources.Bucket.Properties]. *)
Lemma hover_documentation_request_witness :
  let document := propertyDocument bucketName in
  let node := propertyValue bucketName "BucketName" in
  let calls := (hover service (Some document) (at_ 4 18) node).1 in
  (∀ name,
     4 ≤ length (getPath node) →
     getPath node !! 0 = Some (Key "Resources") →
     getPath node !! 2 = Some (Key "Properties") →
     getPath node !! 3 = Some name →
     segmentTruthy name = true →
     calls = [GetSchemaForResource (uri document);
              GetPropertyDocumentation (JString "AWS::S3::Bucket") (String_ name)])
  ∧ (length (getPath node) < 4
     ∨ getPath node !! 2 ≠ Some (Key "Properties")
     ∨ (∃ name, getPath node !! 3 = Some name ∧ segmentTruthy name = false) →
     calls = [GetSchemaForResource (uri document);
              GetResourceDocumentation (JString "AWS::S3::Bucket")]).
Proof.
  apply (hover_documentation_request offsetAt positionAt matchOffsetToDocument
           getNodeFromOffset service (propertyDocument bucketName) (at_ 4 18)
           (propertyValue bucketName "BucketName")
           (propertyValue bucketName "BucketName")
           (propertyValue bucketName "BucketName") tt
           (JString "AWS::S3::Bucket")); reflexivity.
Defined.

(** C7 at a template whose [Type] is a sequence with the one quoted item
    [AWS::], for the key [Type], and at a template whose [Type] is the
    number 5, for that number: in the first the value that
    [getResourceName] accepts and returns is the sequence, which is not a
    string that begins with [AWS::]; in the second the search yields
    neither a resource type nor absent, it throws. *)
Theorem getResourceName_accepts_a_sequence :
  length (getText listTypeDocument) = 46
  ∧ (start listTypeKey ≤ offsetAt listTypeDocument (at_ 2 5)
       < end_ listTypeKey)%Z
  ∧ getResourceName listTypeKey = Returned (Some (JArray [JString "AWS::"]))
  ∧ (∀ s, getResourceName listTypeKey ≠ Returned (Some (JString s)))
  ∧ getResourceName numberTypeValue
    = Thrown "TypeError: resourceTypeValue.indexOf is not a function".
Proof.
  split; [reflexivity |]. split; [vm_compute; split; congruence |].
  split; [reflexivity |]. split; [discriminate | reflexivity].
Qed.

(** C8 at a template whose [Type] is the number 5, for the position of that
    number, which lies within the text: [doHover] does not return, it
    throws a TypeError out of [getResourceName]. *)
Example hover_on_property_value :
  hover service (Some (propertyDocument bucketName)) (at_ 4 18)
        (propertyValue bucketName "BucketName")
  = ([GetSchemaForResource "file:///template.yaml";
      GetPropertyDocumentation (JString "AWS::S3::Bucket") "BucketName"],
     Returned (Some {| contents := ["Property BucketName"];
                       hover_range := {| range_start := at_ 4 18;
                                         range_end := at_ 4 19 |} |})).
Proof. reflexivity. Qed.

Theorem doHover_throws_on_number_type :
  (0 ≤ offsetAt numberTypeDocument (at_ 2 10)
     < Z.of_nat (length (getText numberTypeDocument)))%Z
  ∧ getResourceName numberTypeValue
    = Thrown "TypeError: resourceTypeValue.indexOf is not a function"
  ∧ (hover service (Some numberTypeDocument) (at_ 2 10) numberTypeValue).2
    = Thrown "TypeError: resourceTypeValue.indexOf is not a function".
Proof. split; [vm_compute; split; congruence |]. split; reflexivity. Qed.

End HoverInstances.

(** * Properties of the debounced validation *)

Section Scheduling.
Import Lsp Server.

Lemma idle_consistent : consistent idle.
Proof. split; intros *; simpl; by rewrite lookup_empty. Qed.

Lemma cancel_consistent target request s :
  consistent s →
  pendingValidationRequests s !! target = Some request →
  consistent (deletePending target (clearTimeout request s)).
Proof.
  intros [Hps Hsp Hold] Hreq. split; simpl.
  - intros u t Hu. apply lookup_delete_Some in Hu as [Hne Hu].
    destruct (Hps _ _ Hu) as (held & Hheld & Huri). exists held.
    split; [| done]. rewrite lookup_delete_ne; [done |].
    intros <-. destruct (Hps _ _ Hreq) as (held' & Hheld' & Huri').
    congruence.
  - intros t held Ht. apply lookup_delete_Some in Ht as [Hne Ht].
    rewrite lookup_delete_ne; [by apply Hsp |].
    intros Heq. apply Hsp in Ht. congruence.
  - intros t held Ht. apply lookup_delete_Some in Ht as [_ Ht]. eauto.
Qed.

Lemma cleanPendingValidation_consistent document s :
  consistent s → consistent (cleanPendingValidation document s).
Proof.
  intros Hs. unfold cleanPendingValidation.
  destruct (pendingValidationRequests s !! uri document) eqn:Hreq; [| done].
  by apply cancel_consistent.
Qed.

Lemma cleanPendingValidation_clears document s :
  consistent s →
  pendingValidationRequests (cleanPendingValidation document s)
    !! uri document = None
  ∧ ∀ request held,
      timers (cleanPendingValidation document s) !! request = Some held →
      uri held ≠ uri document.
Proof.
  intros Hs.
  assert (Hnone : pendingValidationRequests (cleanPendingValidation document s)
                    !! uri document = None).
  { unfold cleanPendingValidation.
    destruct (pendingValidationRequests s !! uri document) eqn:Hreq; [| done].
    simpl. apply lookup_delete_eq. }
  split; [done |]. intros request held Hheld Huri.
  apply (set_pending _ (cleanPendingValidation_consistent document s Hs))
    in Hheld.
  congruence.
Qed.

Lemma triggerValidation_consistent document s :
  consistent s → consistent (triggerValidation document s).
Proof.
  intros Hs. destruct (cleanPendingValidation_clears document s Hs)
    as [Hnone Hother].
  apply (cleanPendingValidation_consistent document) in Hs.
  destruct Hs as [Hps Hsp Hold]. unfold triggerValidation. simpl.
  set (c := cleanPendingValidation document s) in *.
  assert (Hfresh : timers c !! nextTimer c = None).
  { destruct (timers c !! nextTimer c) eqn:H; [| done].
    apply Hold in H. lia. }
  split; simpl.
  - intros u t Hu. apply lookup_insert_Some in Hu as [[<- <-] | [Hne Hu]].
    + exists document. by rewrite lookup_insert_eq.
    + destruct (Hps _ _ Hu) as (held & Hheld & Huri). exists held.
      split; [| done]. rewrite lookup_insert_ne; [done |].
      intros <-. congruence.
  - intros t held Ht. apply lookup_insert_Some in Ht as [[<- <-] | [Hne Ht]].
    + by rewrite lookup_insert_eq.
    + rewrite lookup_insert_ne; [by apply Hsp |].
      intros Heq. by apply (Hother _ _ Ht).
  - intros t held Ht. apply lookup_insert_Some in Ht as [[<- <-] | [Hne Ht]].
    + lia.
    + apply Hold in Ht. lia.
Qed.

Lemma expire_consistent request s :
  consistent s → consistent (expire request s).1.
Proof.
  intros Hs. unfold expire.
  destruct (timers s !! request) as [held|] eqn:Hheld; [| done].
  simpl. apply cancel_consistent; [done |]. by apply (set_pending _ Hs).
Qed.

Lemma handle_consistent s e : consistent s → consistent (handle s e).
Proof.
  destruct e as [d | d | request | ds]; simpl.
  - apply triggerValidation_consistent.
  - apply cleanPendingValidation_consistent.
  - apply expire_consistent.
  - revert s. induction ds as [|d ds IH]; intros s Hs; simpl; [done |].
    by apply IH, triggerValidation_consistent.
Qed.

Lemma after_consistent events : consistent (after events).
Proof.
  unfold after. induction events as [|e events IH] using rev_ind.
  - apply idle_consistent.
  - rewrite foldl_app. simpl. by apply handle_consistent.
Qed.

(** X1: whatever changes, closes and expiries came before, no two timers that
    are set hold documents with the same URI: at most one validation is
    pending per document. *)
Theorem one_pending_validation_per_document
    (events : list Event) (request request' : Timer)
    (held held' : TextDocument) :
  timers (after events) !! request = Some held →
  timers (after events) !! request' = Some held' →
  uri held = uri held' →
  request = request'.
Proof.
  intros H H' Huri.
  apply (set_pending _ (after_consistent events)) in H, H'.
  congruence.
Qed.

(** X2: after a change of a document the pending validation of its URI is the
    one just triggered: the entry names the newest timer, that timer holds
    the document as it was passed, and no other timer holds a document with
    that URI. *)
Theorem change_supersedes_pending_validation
    (events : list Event) (document : TextDocument) :
  let before := after events in
  let s := after (events ++ [DidChangeContent document]) in
  pendingValidationRequests s !! uri document = Some (nextTimer before)
  ∧ timers s !! nextTimer before = Some document
  ∧ ∀ request held, timers s !! request = Some held →
      uri held = uri document → request = nextTimer before ∧ held = document.
Proof.
  intros before s.
  assert (Hs : consistent s) by apply after_consistent.
  assert (Hnext : nextTimer (cleanPendingValidation document before)
                  = nextTimer before).
  { unfold cleanPendingValidation. by destruct (_ !! _). }
  assert (Hp : pendingValidationRequests s !! uri document
               = Some (nextTimer before)).
  { subst s. unfold after. rewrite foldl_app. simpl.
    unfold triggerValidation. simpl. fold (after events). fold before.
    by rewrite lookup_insert_eq, Hnext. }
  assert (Ht : timers s !! nextTimer before = Some document).
  { subst s. unfold after. rewrite foldl_app. simpl.
    unfold triggerValidation. simpl. fold (after events). fold before.
    by rewrite Hnext, lookup_insert_eq. }
  split; [done |]. split; [done |].
  intros request held Hheld Huri.
  pose proof (set_pending _ Hs _ _ Hheld) as Hreq.
  rewrite Huri in Hreq. rewrite Hp in Hreq.
  injection Hreq as <-. split; [done |]. congruence.
Qed.

(** X3: closing a document cancels its pending validation: afterwards its URI
    has no pending entry, no timer that is set holds a document with that
    URI, and the empty list is what is sent for it. *)
Theorem close_cancels_pending_validation {Y}
    (events : list Event) (document : TextDocument) :
  let closed := onDidClose (Y := Y) document (after events) in
  closed.1 = after (events ++ [DidClose document])
  ∧ pendingValidationRequests closed.1 !! uri document = None
  ∧ (∀ request held, timers closed.1 !! request = Some held →
       uri held ≠ uri document)
  ∧ ∀ shown, editorAfter shown closed.2 !! uri document = Some [].
Proof.
  intros closed. subst closed. simpl.
  split; [unfold after; by rewrite foldl_app |].
  destruct (cleanPendingValidation_clears document (after events)
              (after_consistent events)) as [Hnone Hother].
  split; [done |]. split; [done |].
  intros shown. apply lookup_insert_eq.
Qed.

Lemma validated_app s events events' :
  validated s (events ++ events')
  = validated s events ++ validated (foldl handle s events) events'.
Proof.
  revert s. induction events as [|e events IH]; intros s; simpl; [done |].
  by rewrite IH, (assoc_L (++)).
Qed.

Lemma expire_size request s held :
  (expire request s).2 = Some held →
  timers s !! request = Some held
  ∧ S (size (timers (expire request s).1)) = size (timers s).
Proof.
  unfold expire. destruct (timers s !! request) as [d|] eqn:Hd; [| done].
  simpl. intros [= ->]. split; [done |].
  rewrite map_size_delete, Hd. simpl.
  assert (size (timers s) ≠ 0); [| lia].
  apply map_size_non_empty_iff. intros Hempty.
  by rewrite Hempty, lookup_empty in Hd.
Qed.

Lemma cleanPendingValidation_timers d s request held :
  timers (cleanPendingValidation d s) !! request = Some held →
  timers s !! request = Some held.
Proof.
  unfold cleanPendingValidation.
  destruct (pendingValidationRequests s !! uri d); [| done].
  simpl. by intros [_ ?]%lookup_delete_Some.
Qed.

Lemma cleanPendingValidation_size d s :
  size (timers (cleanPendingValidation d s)) ≤ size (timers s).
Proof.
  unfold cleanPendingValidation.
  destruct (pendingValidationRequests s !! uri d) as [request|]; [| done].
  simpl. rewrite map_size_delete.
  destruct (timers s !! request); simpl; lia.
Qed.

Lemma triggerValidation_size d s :
  size (timers (triggerValidation d s)) ≤ S (size (timers s)).
Proof.
  pose proof (cleanPendingValidation_size d s) as Hclean.
  unfold triggerValidation. simpl. rewrite map_size_insert.
  destruct (_ !! _); simpl; lia.
Qed.

Lemma triggerValidation_timers d s request held :
  timers (triggerValidation d s) !! request = Some held →
  timers s !! request = Some held ∨ held = d.
Proof.
  unfold triggerValidation. simpl.
  intros [[_ <-] | [_ H]]%lookup_insert_Some; [by right |].
  left. by apply cleanPendingValidation_timers in H.
Qed.

Lemma handle_size s e :
  size (timers (handle s e)) ≤ size (timers s) + length (triggered e).
Proof.
  destruct e as [d | d | request | ds]; cbn [handle triggered length].
  - pose proof (triggerValidation_size d s). lia.
  - pose proof (cleanPendingValidation_size d s). lia.
  - unfold expire. destruct (timers s !! request) eqn:Hrequest; simpl; [| lia].
    rewrite map_size_delete, Hrequest. simpl. lia.
  - revert s. induction ds as [|d ds IH]; intros s; cbn [foldl length]; [lia |].
    specialize (IH (triggerValidation d s)).
    pose proof (triggerValidation_size d s). lia.
Qed.

Lemma handle_timers s e request held :
  timers (handle s e) !! request = Some held →
  timers s !! request = Some held ∨ held ∈ triggered e.
Proof.
  destruct e as [d | d | t | ds]; cbn [handle triggered].
  - intros [? | ->]%triggerValidation_timers; [by left |].
    right. by apply list_elem_of_singleton.
  - intros ?%cleanPendingValidation_timers. by left.
  - unfold expire. destruct (timers s !! t) eqn:Ht; [| by left].
    simpl. intros [_ ?]%lookup_delete_Some. by left.
  - revert s. induction ds as [|d ds IH]; intros s; cbn [foldl]; [by left |].
    intros [[? | ->]%triggerValidation_timers | ?]%IH.
    + by left.
    + right. by left.
    + right. by right.
Qed.

Lemma validated_bound s events :
  length (validated s events)
  ≤ size (timers s) + length (events ≫= triggered).
Proof.
  revert s. induction events as [|e events IH]; intros s; [simpl; lia |].
  cbn [validated mbind list_bind]. rewrite !length_app.
  specialize (IH (handle s e)). pose proof (handle_size s e) as Hsize.
  destruct e as [d | d | request | ds]; cbn [triggered length] in *; try lia.
  change (handle s (Expired request)) with (expire request s).1 in *.
  destruct ((expire request s).2) as [held|] eqn:Hheld; cbn [length]; [| lia].
  apply expire_size in Hheld as [_ Hless]. lia.
Qed.

Lemma validated_origin s events document :
  document ∈ validated s events →
  (∃ request, timers s !! request = Some document)
  ∨ ∃ e, e ∈ events ∧ document ∈ triggered e.
Proof.
  revert s. induction events as [|e events IH]; intros s; simpl.
  { by rewrite elem_of_nil. }
  rewrite elem_of_app. intros [Hnow | Hlater].
  - destruct e as [d | d | request | ds]; try by apply elem_of_nil in Hnow.
    destruct ((expire request s).2) as [held|] eqn:Hheld;
      [| by apply elem_of_nil in Hnow].
    apply list_elem_of_singleton in Hnow as ->.
    apply expire_size in Hheld as [Hheld _]. eauto.
  - apply IH in Hlater as [[request Hreq] | (e' & Hin & Htrig)].
    + apply handle_timers in Hreq as [Hreq | Htrig]; [by eauto |].
      right. exists e. split; [by left | done].
    + right. exists e'. split; [by right | done].
Qed.

(** X4: a document that a timer validates is one that a validation was
    triggered for, by a change of its content or, being open, by a change
    of the configuration, and the timers validate no more often than
    validations were triggered. *)
Theorem validations_come_from_changes (events : list Event) :
  (∀ document, document ∈ validated idle events →
     ∃ e, e ∈ events ∧ document ∈ triggered e)
  ∧ length (validated idle events) ≤ length (events ≫= triggered).
Proof.
  split.
  - intros document [[request Hreq] | Hin]%validated_origin; [| done].
    simpl in Hreq. by rewrite lookup_empty in Hreq.
  - pose proof (validated_bound idle events) as H. simpl in H.
    by rewrite map_size_empty in H.
Qed.

Lemma burst_state (target : string) (documents : list TextDocument)
    (last : TextDocument) :
  Forall (λ d, uri d = target) (documents ++ [last]) →
  after (DidChangeContent <$> documents ++ [last])
  = {| pendingValidationRequests := {[target := length documents]};
       timers := {[length documents := last]};
       nextTimer := S (length documents) |}.
Proof.
  revert last. induction documents as [|d documents IH] using rev_ind;
    intros last Huri.
  - simpl in Huri. rewrite Forall_singleton in Huri. unfold after. simpl.
    unfold triggerValidation, cleanPendingValidation. simpl.
    rewrite lookup_empty. simpl. by rewrite Huri, !insert_empty.
  - rewrite Forall_app, Forall_singleton in Huri. destruct Huri as [Hds Hlast].
    rewrite fmap_app. unfold after. rewrite foldl_app. simpl.
    fold (after (DidChangeContent <$> documents ++ [d])).
    rewrite (IH d Hds). rewrite length_app, Nat.add_comm. simpl.
    unfold triggerValidation, cleanPendingValidation. simpl.
    rewrite Hlast, lookup_singleton_eq. simpl.
    by rewrite !delete_singleton_eq, !insert_empty.
Qed.

Lemma validated_expiries_none s expiries :
  timers s = ∅ → validated s (Expired <$> expiries) = [].
Proof.
  intros Hs. induction expiries as [|t expiries IH]; simpl; [done |].
  unfold expire. rewrite Hs, lookup_empty. simpl. apply IH.
Qed.

Lemma validated_expiries_one s expiries request held :
  timers s = {[request := held]} →
  validated s (Expired <$> expiries) = []
  ∨ validated s (Expired <$> expiries) = [held].
Proof.
  intros Hs. induction expiries as [|t expiries IH]; simpl; [by left |].
  unfold expire. rewrite Hs.
  destruct (decide (t = request)) as [-> | Hne].
  - rewrite lookup_singleton_eq. simpl. right.
    rewrite validated_expiries_none; [done |].
    simpl. by rewrite Hs, delete_singleton_eq.
  - rewrite lookup_singleton_ne by done. simpl. apply IH.
Qed.

(** X5: a burst of changes to one document, followed by any expiries of
    timers, is validated at most once, and then it is the document of the
    last change that is validated. *)
Theorem burst_is_validated_once
    (target : string) (documents : list TextDocument) (last : TextDocument)
    (expiries : list Timer) :
  Forall (λ d, uri d = target) (documents ++ [last]) →
  let events :=
    (DidChangeContent <$> documents ++ [last]) ++ (Expired <$> expiries) in
  validated idle events = [] ∨ validated idle events = [last].
Proof.
  intros Huri events. subst events. rewrite validated_app.
  assert (Hquiet : ∀ s ds, validated s (DidChangeContent <$> ds) = []).
  { intros s ds. revert s. induction ds as [|d ds IH]; intros s; simpl; auto. }
  rewrite Hquiet. simpl.
  fold (after (DidChangeContent <$> documents ++ [last])).
  apply (validated_expiries_one _ _ (length documents)).
  by rewrite (burst_state target).
Qed.

End Scheduling.

(** * Properties of the configuration *)

Section Configuring.
Import Lsp Server.

Context {JSONSchema Root : Type}.
Variable schemaId : JSONSchema → option string.
Variable workspacePath : Root → string → string.

Local Abbreviation configureOne := (configureOne schemaId workspacePath).
Local Abbreviation languageSettingsOf :=
  (languageSettingsOf schemaId workspacePath).

(** What one entry adds: one binding at the end, with the entry's matcher,
    with the entry's URL when that is given and does not start with a dot,
    and with the catch-all URI when neither a URL nor an inline schema with
    an [id] is given. *)
Lemma configureOne_adds (config : Configuration)
    (languageSettings : LanguageSettings)
    (entry : SchemaConfiguration (JSONSchema := JSONSchema)) :
  ∃ binding,
    configureOne config languageSettings entry = push binding languageSettings
    ∧ bound_documentMatch binding = documentMatch entry
    ∧ (∀ u, url entry = Some u → u ≠ "" → String.get 0 u ≠ Some "."%char →
         bound_uri binding = u)
    ∧ (given (url entry) = false →
       (∀ inline, schema entry = Defined inline →
          given (schemaId inline) = false) →
       bound_uri binding = "vscode://schemas/custom/*.yaml").
Proof.
  unfold Server.configureOne.
  set (named := match schema entry with
                | Defined inline =>
                    if negb (given (url entry)) then schemaId inline
                    else url entry
                | _ => url entry
                end).
  set (uri := if negb (given named)
              then Some "vscode://schemas/custom/*.yaml" else named).
  assert (Hgiven : given uri = true).
  { subst uri. by destruct (given named) eqn:H. }
  destruct uri as [u|] eqn:Huri; [| done]. simpl in Hgiven. rewrite Hgiven.
  set (final := match String.get 0 u, workspaceRoot config with
                | Some "."%char, Some root =>
                    if negb (hasWorkspaceFolderCapability config)
                    then workspacePath root u else u
                | _, _ => u
                end).
  assert (Hpush : ∃ binding,
            configureSchemas final (documentMatch entry) (schema entry)
                             languageSettings = push binding languageSettings
            ∧ bound_documentMatch binding = documentMatch entry
            ∧ bound_uri binding = final).
  { unfold configureSchemas. destruct (schema entry); eauto. }
  destruct Hpush as (binding & -> & Hmatch & Hfinal).
  exists binding. split; [done |]. split; [done |]. rewrite Hfinal. split.
  - intros v Hv Hne Hdot.
    assert (Hnamed : named = Some v).
    { subst named. rewrite Hv. simpl.
      assert (String.eqb v "" = false) as -> by by apply String.eqb_neq.
      by destruct (schema entry). }
    assert (u = v) as ->.
    { subst uri. rewrite Hnamed in Huri. simpl in Huri.
      assert (String.eqb v "" = false) as Hv' by by apply String.eqb_neq.
      rewrite Hv' in Huri. simpl in Huri. congruence. }
    subst final. destruct (String.get 0 v) as [c|]; [| done].
    destruct (Ascii.ascii_dec c "."%char) as [-> | Hc]; [done |].
    destruct c as [[] [] [] [] [] [] [] []]; try done.
  - intros Hurl Hid.
    assert (Hnamed : given named = false).
    { subst named. destruct (schema entry) as [| | inline]; try done.
      rewrite Hurl. simpl. by apply Hid. }
    assert (u = "vscode://schemas/custom/*.yaml") as ->.
    { subst uri. rewrite Hnamed in Huri. simpl in Huri. congruence. }
    done.
Qed.

Lemma configure_entries (config : Configuration) (languageSettings : LanguageSettings)
    (entries : list (SchemaConfiguration (JSONSchema := JSONSchema))) :
  let done_ := foldl (configureOne config) languageSettings entries in
  validate done_ = validate languageSettings
  ∧ hover done_ = hover languageSettings
  ∧ completion done_ = completion languageSettings
  ∧ settings_customTags done_ = settings_customTags languageSettings
  ∧ ∃ added,
      schemas done_ = schemas languageSettings ++ added
      ∧ Forall2 (λ entry binding,
           bound_documentMatch binding = documentMatch entry
           ∧ (∀ u, url entry = Some u → u ≠ "" →
                String.get 0 u ≠ Some "."%char → bound_uri binding = u)
           ∧ (given (url entry) = false →
              (∀ inline, schema entry = Defined inline →
                 given (schemaId inline) = false) →
              bound_uri binding = "vscode://schemas/custom/*.yaml"))
         entries added.
Proof.
  revert languageSettings.
  induction entries as [|entry entries IH]; intros languageSettings; simpl.
  - repeat (split; [done |]). exists []. by rewrite app_nil_r.
  - destruct (configureOne_adds config languageSettings entry)
      as (binding & -> & Hbinding).
    destruct (IH (push binding languageSettings))
      as (Hv & Hh & Hc & Ht & added & Hadded & Hall).
    repeat (split; [done |]). exists (binding :: added).
    split; [| by constructor].
    rewrite Hadded. simpl. by rewrite <- (assoc_L (++)).
Qed.

(** X6: the settings handed to the language service have one schema binding
    per configured entry, in the order of the entries, each with its
    entry's document matcher; an entry's URL that is not empty and does not
    start with a dot is the binding's URI as it is, and an entry with
    neither a URL nor an inline schema with an [id] is bound to the
    catch-all URI.  The three switches and the custom tags are passed on. *)
Theorem schema_bindings_follow_configuration (config : Configuration)
    (entries : list (SchemaConfiguration (JSONSchema := JSONSchema))) :
  schemaConfigurationSettings config = Some entries →
  let languageSettings := languageSettingsOf config in
  Forall2 (λ entry binding,
     bound_documentMatch binding = documentMatch entry
     ∧ (∀ u, url entry = Some u → u ≠ "" →
          String.get 0 u ≠ Some "."%char → bound_uri binding = u)
     ∧ (given (url entry) = false →
        (∀ inline, schema entry = Defined inline →
           given (schemaId inline) = false) →
        bound_uri binding = "vscode://schemas/custom/*.yaml"))
    entries (schemas languageSettings)
  ∧ validate languageSettings = yamlShouldValidate config
  ∧ hover languageSettings = yamlShouldHover config
  ∧ completion languageSettings = yamlShouldCompletion config
  ∧ settings_customTags languageSettings = customTags.
Proof.
  intros Hentries languageSettings. subst languageSettings.
  unfold Server.languageSettingsOf. rewrite Hentries. simpl.
  match goal with |- context [foldl _ ?init entries] =>
    destruct (configure_entries config init entries)
      as (Hv & Hh & Hc & Ht & added & Hadded & Hall)
  end.
  simpl in *. rewrite Hadded, app_nil_r. by repeat split.
Qed.

(** What [updateConfiguration] does to the scheduler is the event of a
    configuration change. *)
Lemma updateConfiguration_is_event
    (config : Configuration (JSONSchema := JSONSchema) (Root := Root))
    (openDocuments : list TextDocument) (s : Scheduler) :
  (updateConfiguration schemaId workspacePath config openDocuments s).2
  = handle s (DidChangeConfiguration openDocuments).
Proof. reflexivity. Qed.

Lemma triggerValidation_keeps_pending document s target :
  is_Some (pendingValidationRequests s !! target) →
  is_Some (pendingValidationRequests (triggerValidation document s) !! target).
Proof.
  intros Hsome. unfold triggerValidation. simpl.
  destruct (decide (uri document = target)) as [<- | Hne].
  - by rewrite lookup_insert_eq.
  - rewrite lookup_insert_ne by done.
    unfold cleanPendingValidation. destruct (_ !! uri document); [| done].
    simpl. by rewrite lookup_delete_ne.
Qed.

(** X7: after [updateConfiguration], whatever happened before, every open
    document has a validation pending: its URI has an entry, and the timer
    of that entry is set and holds a document with that URI. *)
Theorem updateConfiguration_revalidates_open_documents
    (config : Configuration (JSONSchema := JSONSchema) (Root := Root))
    (events : list Event) (openDocuments : list TextDocument)
    (document : TextDocument) :
  document ∈ openDocuments →
  let s := (updateConfiguration schemaId workspacePath config openDocuments
              (after events)).2 in
  ∃ request held,
    pendingValidationRequests s !! uri document = Some request
    ∧ timers s !! request = Some held
    ∧ uri held = uri document.
Proof.
  intros Hopen s. subst s. unfold updateConfiguration. simpl.
  assert (Hreach : ∀ ds s0,
    foldl (λ s d, triggerValidation d s) s0 ds
    = foldl handle s0 (DidChangeContent <$> ds)).
  { induction ds as [|d ds IH]; intros s0; simpl; [done | apply IH]. }
  rewrite Hreach. unfold after. rewrite <- foldl_app.
  fold (after (events ++ (DidChangeContent <$> openDocuments))).
  assert (Hsome : is_Some (pendingValidationRequests
             (after (events ++ (DidChangeContent <$> openDocuments)))
             !! uri document)).
  { unfold after. rewrite foldl_app. fold (after events).
    generalize (after events). clear Hreach.
    induction openDocuments as [|d ds IH]; intros s0;
      [by apply elem_of_nil in Hopen |].
    apply elem_of_cons in Hopen as [<- | Hopen]; simpl.
    - assert (Hnow : is_Some (pendingValidationRequests
                        (triggerValidation document s0) !! uri document)).
      { unfold triggerValidation. simpl. by rewrite lookup_insert_eq. }
      revert Hnow. generalize (triggerValidation document s0). clear.
      induction ds as [|d ds IH]; intros s Hs; simpl; [done |].
      apply IH. by apply triggerValidation_keeps_pending.
    - by apply IH. }
  destruct Hsome as [request Hrequest]. exists request.
  destruct (pending_set _ (after_consistent _) _ _ Hrequest)
    as (held & Hheld & Huri).
  by exists held.
Qed.

End Configuring.

(** * Further properties of validation and completion repair *)

Section MoreValidation.
Import Js Lsp Server.

Context {YAMLDocument : Type}.
Variable isSupportedDocument : list N → bool.
Variable parseYAML : list N → list string → YAMLDocument.
Variable doValidation : TextDocument → YAMLDocument → option (list Diagnostic).
Variable removeDuplicatesObj : list Diagnostic → list Diagnostic.

Local Abbreviation validateTextDocument :=
  (validateTextDocument isSupportedDocument parseYAML doValidation
     removeDuplicatesObj).

(** X8: a run of [validateTextDocument] changes what the editor shows for the
    document's own URI at most: every other URI keeps its diagnostics. *)
Theorem validation_leaves_other_documents
    (textDocument : option TextDocument) (other : string)
    (shown : gmap string (list Diagnostic)) :
  (∀ td, textDocument = Some td → uri td ≠ other) →
  editorAfter shown (validateTextDocument textDocument) !! other
  = shown !! other.
Proof.
  intros Hother. unfold Server.validateTextDocument.
  destruct textDocument as [td|]; [| done].
  specialize (Hother td eq_refl).
  case_decide; [by apply lookup_insert_ne |].
  destruct (isSupportedDocument _); simpl; [| by apply lookup_insert_ne].
  destruct (doValidation td _); simpl; [by apply lookup_insert_ne | done].
Qed.

(** X9: every diagnostic that is published is one that the validation
    returned, with its range, message and source as they were, as long as
    the duplicate filter hands back only diagnostics it was given: nothing
    is invented and only the severity is rewritten. *)
Theorem published_diagnostics_come_from_validation
    (textDocument : TextDocument) (results : list Diagnostic)
    (target : string) (diagnostics : list Diagnostic) (d : Diagnostic) :
  (∀ l d, d ∈ removeDuplicatesObj l → d ∈ l) →
  doValidation textDocument (parseYAML (getText textDocument) customTags)
  = Some results →
  SendDiagnostics target diagnostics ∈ validateTextDocument (Some textDocument) →
  d ∈ diagnostics →
  ∃ d', d' ∈ results ∧ range d = range d' ∧ message d = message d'
        ∧ source d = source d'.
Proof.
  intros Hsub Hresults Hsent Hd. unfold Server.validateTextDocument in Hsent.
  case_decide.
  { apply list_elem_of_singleton in Hsent. injection Hsent as _ ->.
    by apply elem_of_nil in Hd. }
  destruct (isSupportedDocument _); simpl in Hsent.
  - rewrite Hresults in Hsent. rewrite !elem_of_cons in Hsent.
    destruct Hsent as [? | [? | [Hsent | Hsent]]];
      [done | done | | by apply elem_of_nil in Hsent].
    injection Hsent as _ ->.
    apply Hsub, list_elem_of_fmap in Hd as (d' & -> & Hd'). by exists d'.
  - apply list_elem_of_singleton in Hsent. injection Hsent as _ ->.
    by apply elem_of_nil in Hd.
Qed.

(** X10: when the validation of a supported, non-empty document is rejected,
    nothing is sent: the text is parsed, the validation is asked for, and
    the editor goes on showing what it showed. *)
Theorem rejected_validation_publishes_nothing
    (textDocument : TextDocument) (shown : gmap string (list Diagnostic)) :
  getText textDocument ≠ [] →
  isSupportedDocument (getText textDocument) = true →
  doValidation textDocument (parseYAML (getText textDocument) customTags)
  = None →
  (∀ target diagnostics,
     SendDiagnostics target diagnostics ∉ validateTextDocument (Some textDocument))
  ∧ editorAfter shown (validateTextDocument (Some textDocument)) = shown.
Proof.
  intros Htext Hsupported Hrejected. unfold Server.validateTextDocument.
  rewrite decide_False, Hsupported, Hrejected; [|by destruct (getText _)].
  simpl. split; [| done].
  intros target diagnostics Hin. rewrite !elem_of_cons in Hin.
  destruct Hin as [? | [? | Hin]]; [done | done |].
  by apply elem_of_nil in Hin.
Qed.

End MoreValidation.

Section MoreCompletion.
Import Js Lsp Server.

Variable getLineOffsets : list N → list nat.

Lemma stripEOL_run (text : list N) (end_ : nat) :
  stripEOL text end_ ≤ end_
  ∧ (∀ i c, stripEOL text end_ ≤ i < end_ → text !! i = Some c →
       is_EOL c = true)
  ∧ (∀ i c, S i = stripEOL text end_ → text !! i = Some c →
       is_EOL c = false).
Proof.
  induction end_ as [|e (Hle & Hover & Hstop)]; simpl.
  - split; [lia |]. split; [intros; lia | intros; lia].
  - destruct (text !! e) as [c|] eqn:Hc.
    + destruct (is_EOL c) eqn:Heol.
      * split; [lia |]. split; [| done].
        intros i c' Hi Hc'. destruct (decide (i = e)) as [-> | Hne].
        -- congruence.
        -- apply (Hover i); [lia | done].
      * split; [lia |]. split; [intros; lia |].
        intros i c' [= ->] Hc'. congruence.
    + split; [lia |]. split; [intros; lia |].
      intros i c' [= ->] Hc'. congruence.
Qed.

(** X11: the strip loop stops at or before where it started, every character it
    stepped over is a CR or an LF, and it stops at the start of the text,
    past its end, or behind a character that is neither. *)
Theorem stripEOL_strips_line_ends (text : list N) (end_ : nat) :
  stripEOL text end_ ≤ end_
  ∧ (∀ i c, stripEOL text end_ ≤ i < end_ → text !! i = Some c →
       is_EOL c = true)
  ∧ (∀ i c, S i = stripEOL text end_ → text !! i = Some c →
       is_EOL c = false).
Proof. apply stripEOL_run. Qed.

Lemma substring_from_0 (s : list N) (b : nat) : substring s 0 b = take b s.
Proof.
  unfold substring. rewrite Nat.min_0_l, Nat.max_0_l, Nat.sub_0_r. simpl.
  rewrite drop_0. destruct (decide (b ≤ length s)).
  - by rewrite Nat.min_l.
  - rewrite Nat.min_r by lia. by rewrite !take_ge by lia.
Qed.

(** X12: whatever the line offsets are, the repair leaves the text around the
    cursor's line alone: the text before the start of the line is a prefix
    of the result, and the text from the start of the next line on is a
    suffix of it. *)
Theorem completionHelper_keeps_surrounding_text
    (document : TextDocument) (position : Position) (start : nat) :
  lineStart getLineOffsets document position = Some start →
  let fix_ := completionHelper getLineOffsets document position in
  take start (getText document) `prefix_of` newText fix_
  ∧ drop (nextLine getLineOffsets document position) (getText document)
    `suffix_of` newText fix_.
Proof.
  intros Hstart fix_. subst fix_. unfold completionHelper.
  rewrite Hstart. cbn [fmap option_fmap option_map toIndex default].
  rewrite substring_from_0. unfold substr.
  set (line_ := textLine getLineOffsets document position).
  set (next := nextLine getLineOffsets document position).
  set (text := getText document).
  assert (Hprefix : ∀ tail,
    take start text `prefix_of` take (start + length line_) text ++ tail).
  { intros tail. apply prefix_app_r. exists (drop start (take (start + length line_) text)).
    rewrite <- (take_drop start (take _ _)) at 1. f_equal.
    rewrite take_take. f_equal. lia. }
  assert (Hsuffix : ∀ front, drop next text `suffix_of` front ++ drop next text).
  { intros front. by exists front. }
  destruct (lacks line_ _).
  - destruct (_ || _); cbn [newText]; (split; [apply Hprefix |]).
    + rewrite !(assoc_L (++)). apply Hsuffix.
    + rewrite !(assoc_L (++)). apply Hsuffix.
  - cbn [newText]. split.
    + exists (drop start text). by rewrite take_drop.
    + exists (take next text). by rewrite take_drop.
Qed.

Lemma trim_line_ends (s : list N) :
  Forall (λ c, is_EOL c = true) s → trim s = [].
Proof.
  intros Hs. unfold trim.
  assert (Hdrop : dropWhile isWhiteSpace s = []).
  { induction Hs as [|c s Hc _ IH]; simpl; [done |].
    assert (isWhiteSpace c = true) as ->; [| done].
    unfold is_EOL in Hc. apply orb_true_iff in Hc as [Hc | Hc];
      apply N.eqb_eq in Hc; by subst c. }
  by rewrite Hdrop.
Qed.

Lemma completionHelper_after_line_end
    (document : TextDocument) (position : Position) (start : nat) :
  let text := getText document in
  let next := nextLine getLineOffsets document position in
  let back := start - lineEnd getLineOffsets document position in
  lineStart getLineOffsets document position = Some start →
  lineEnd getLineOffsets document position < start →
  start ≤ next →
  next ≤ length text →
  completionHelper getLineOffsets document position
  = {| newText := take (start + back) text ++ utf16 "holder:" ++ [CR; LF]
                  ++ drop next text;
       newPosition := position |}.
Proof.
  intros text next back Hstart Hback Hnext Hlen. subst back.
  pose proof (stripEOL_run text next) as (_ & Hover & _).
  change (stripEOL text next)
    with (lineEnd getLineOffsets document position) in Hover.
  assert (Hline : textLine getLineOffsets document position
                  = take (start - lineEnd getLineOffsets document position)
                         (drop (lineEnd getLineOffsets document position) text)).
  { unfold textLine, substring. rewrite Hstart.
    cbn [toIndex default]. fold text.
    remember (lineEnd getLineOffsets document position) as stop.
    rewrite (Nat.min_l start), (Nat.min_l stop), (Nat.max_l start),
      (Nat.min_r start) by lia.
    done. }
  remember (lineEnd getLineOffsets document position) as stop eqn:Hstop.
  assert (Heols : Forall (λ c, is_EOL c = true)
                    (take (start - stop) (drop stop text))).
  { apply Forall_forall. intros c Hc.
    apply list_elem_of_lookup in Hc as [i Hi].
    apply lookup_take_Some in Hi as [Hi Hlt]. rewrite lookup_drop in Hi.
    apply (Hover (stop + i)); [lia | done]. }
  assert (Hlength : length (take (start - stop) (drop stop text))
                    = start - stop).
  { rewrite length_take, length_drop. lia. }
  unfold completionHelper. rewrite Hstart, Hline.
  cbn [fmap option_fmap option_map toIndex default].
  rewrite substring_from_0, Hlength. fold text next. unfold substr.
  assert (lacks (take (start - stop) (drop stop text)) 58 = true) as ->.
  { apply bool_decide_eq_true_2. intros Hin.
    by apply (proj1 (Forall_forall _ _) Heols) in Hin. }
  rewrite (trim_line_ends _ Heols). done.
Qed.

(** X13: on a line that the strip loop runs back past, an empty line behind a
    line end, the helper takes the line for the run of CR and LF before it:
    the text is kept up to [cut], as many characters behind the start of the
    line as the loop went back before it, then comes the placeholder, then
    the text from the start of the next line on.  When [cut] lies beyond the
    start of the next line, the text between the two comes out twice, before
    and behind the placeholder; when it lies before, the characters between
    the two are left out. *)
Theorem completionHelper_on_line_after_line_end
    (document : TextDocument) (position : Position) (start : nat) :
  let text := getText document in
  let next := nextLine getLineOffsets document position in
  let cut := start + (start - lineEnd getLineOffsets document position) in
  let fix_ := completionHelper getLineOffsets document position in
  lineStart getLineOffsets document position = Some start →
  lineEnd getLineOffsets document position < start →
  start ≤ next →
  next ≤ length text →
  newPosition fix_ = position
  ∧ newText fix_
    = take cut text ++ utf16 "holder:" ++ [CR; LF] ++ drop next text
  ∧ (next < cut → cut ≤ length text →
     take (cut - next) (drop next text) ≠ []
     ∧ newText fix_
       = take next text ++ take (cut - next) (drop next text)
         ++ utf16 "holder:" ++ [CR; LF]
         ++ take (cut - next) (drop next text) ++ drop cut text)
  ∧ (cut ≤ next →
     newText fix_
     = take cut text ++ utf16 "holder:" ++ [CR; LF]
       ++ drop (next - cut) (drop cut text)).
Proof.
  intros text next cut fix_ Hstart Hback Hnext Hlen. subst fix_.
  rewrite (completionHelper_after_line_end document position start)
    by done.
  fold text next cut. cbn [newText newPosition].
  split; [done |]. split; [done |]. split.
  - intros Hbeyond Hcut. split.
    + intros Hempty. apply (f_equal length) in Hempty.
      rewrite length_take, length_drop in Hempty. simpl in Hempty. lia.
    + set (overlap := take (cut - next) (drop next text)).
      assert (Hfront : take cut text = take next text ++ overlap).
      { subst overlap. rewrite take_take_drop. f_equal. lia. }
      assert (Hrear : drop next text = overlap ++ drop cut text).
      { subst overlap.
        rewrite <- (take_drop (cut - next) (drop next text)) at 1.
        f_equal. rewrite drop_drop. f_equal. lia. }
      rewrite Hfront, Hrear. by rewrite <- !(assoc_L (++)).
  - intros Hbefore. do 3 f_equal. rewrite drop_drop. f_equal. lia.
Qed.

End MoreCompletion.

(** * Further properties of the hover service *)

Section MoreHover.
Import Lsp Hover.

Lemma searchAncestors_nearest budget current v :
  searchAncestors budget current = Returned (Some v) →
  ∃ k up node, current = Some up ∧ k < budget ∧ ancestor k up = Some node
    ∧ resourceNameOf node = Returned (Some v)
    ∧ ∀ j nearer, j < k → ancestor j up = Some nearer →
        resourceNameOf nearer = Returned None.
Proof.
  revert current. induction budget as [|budget IH]; intros [up|]; simpl;
    try done.
  destruct (resourceNameOf up) as [[w|]|e] eqn:Hup; simpl; try done.
  - intros [= ->]. exists 0, up, up.
    split; [done |]. split; [lia |]. split; [done |]. split; [done |].
    intros; lia.
  - intros (k & up' & node & Hp & Hk & Hanc & Hnode & Hnear)%IH.
    exists (S k), up, node. split; [done |]. split; [lia |].
    split; [simpl; by rewrite Hp |]. split; [done |].
    intros [|j] nearer Hj Hnearer; simpl in Hnearer.
    + by injection Hnearer as <-.
    + rewrite Hp in Hnearer. apply (Hnear j); [lia | done].
Qed.

(** X14: the resource type that [getResourceName] returns is the one declared
    nearest to the node: it is what the search of the node itself or of one
    of its first seven ancestors gave, and the searches of the node and of
    all ancestors nearer than that one came back empty. *)
Theorem getResourceName_takes_nearest (node : ASTNode) (v : JSValue) :
  getResourceName node = Returned (Some v) →
  ∃ k up, k ≤ maxDepth ∧ ancestor k node = Some up
    ∧ resourceNameOf up = Returned (Some v)
    ∧ ∀ j nearer, j < k → ancestor j node = Some nearer →
        resourceNameOf nearer = Returned None.
Proof.
  unfold getResourceName.
  destruct (_ && _); [| done].
  unfold mbind, Outcome_bind.
  destruct (resourceNameOf node) as [[w|]|e] eqn:Hnode; try done.
  - intros [= ->]. exists 0, node. split; [lia |]. split; [done |].
    split; [done |]. intros; lia.
  - intros (k & up & found & Hp & Hk & Hanc & Hfound & Hnear)
      %searchAncestors_nearest.
    exists (S k), found. split; [lia |]. split; [simpl; by rewrite Hp |].
    split; [done |].
    intros [|j] nearer Hj Hnearer; simpl in Hnearer.
    + by injection Hnearer as <-.
    + rewrite Hp in Hnearer. apply (Hnear j); [lia | done].
Qed.

Lemma searchAncestors_empty budget current :
  (∀ k up node, current = Some up → k < budget → ancestor k up = Some node →
     resourceNameOf node = Returned None) →
  searchAncestors budget current = Returned None.
Proof.
  revert current. induction budget as [|budget IH]; intros [up|] Hall; simpl;
    try done.
  rewrite (Hall 0 up up eq_refl); [| lia | done]. simpl.
  apply IH. intros k up' node Hp Hk Hanc.
  apply (Hall (S k) up node eq_refl); [lia |]. simpl. by rewrite Hp.
Qed.

(** X15: the search goes no further than the seventh ancestor: when the
    searches of the node and of its first seven ancestors come back empty,
    [getResourceName] returns absent, whatever is declared further up. *)
Theorem getResourceName_stops_at_seventh_ancestor (node : ASTNode) :
  (∀ k up, k ≤ maxDepth → ancestor k node = Some up →
     resourceNameOf up = Returned None) →
  getResourceName node = Returned None.
Proof.
  intros Hall. unfold getResourceName.
  destruct (_ && _); [| done].
  rewrite (Hall 0 node); [| lia | done]. unfold mbind, Outcome_bind.
  apply searchAncestors_empty. intros k up found Hp Hk Hanc.
  apply (Hall (S k)); [unfold maxDepth in *; lia |]. simpl. by rewrite Hp.
Qed.

Lemma findResourceType_returns_on_string_types children :
  Forall typeIsString children →
  ∃ found, findResourceType children = Returned found.
Proof.
  induction 1 as [|child rest Hchild _ IH]; simpl; [by eexists |].
  destruct child as [property|]; [| done].
  destruct (String.eqb (child_type property) "property") eqn:Hty; [| done].
  case_bool_decide as Hkey; [| done]. cbn [andb].
  destruct (value property) as [v|] eqn:Hv; [| done].
  apply String.eqb_eq in Hty.
  destruct (Hchild property v eq_refl Hty Hkey Hv) as [s ->].
  destruct (truthy _); [| done]. simpl.
  destruct (String.prefix _ _); [by eexists | done].
Qed.

Lemma resourceNameOf_returns node :
  Forall typeIsString (getChildNodes node) →
  ∃ found, resourceNameOf node = Returned found.
Proof.
  intros Hstrings. unfold resourceNameOf.
  destruct (negb _); [by eexists |].
  by apply findResourceType_returns_on_string_types.
Qed.

Lemma searchAncestors_returns budget current :
  (∀ k up node, current = Some up → k < budget → ancestor k up = Some node →
     ∃ found, resourceNameOf node = Returned found) →
  ∃ found, searchAncestors budget current = Returned found.
Proof.
  revert current. induction budget as [|budget IH]; intros [up|] Hall; simpl;
    try by eexists.
  destruct (Hall 0 up up eq_refl) as [[w|] ->]; [lia | done | by eexists |].
  simpl. apply IH. intros k up' node Hp Hk Hanc.
  apply (Hall (S k) up node eq_refl); [lia |]. simpl. by rewrite Hp.
Qed.

(** X20: [getResourceName] returns, with a resource type or with absent, and
    does not throw, whenever every property keyed [Type] among the children
    of the node and of its first seven ancestors has a string for its
    value. *)
Theorem getResourceName_returns_on_string_types (node : ASTNode) :
  (∀ k up, k ≤ maxDepth → ancestor k node = Some up →
     Forall typeIsString (getChildNodes up)) →
  ∃ found, getResourceName node = Returned found.
Proof.
  intros Hstrings. unfold getResourceName.
  destruct (_ && _); [| by eexists].
  destruct (resourceNameOf_returns node) as [[w|] ->];
    [apply (Hstrings 0); [lia | done] | by eexists |].
  unfold mbind, Outcome_bind. apply searchAncestors_returns.
  intros k up found Hp Hk Hanc.
  apply resourceNameOf_returns, (Hstrings (S k));
    [unfold maxDepth in *; lia |].
  simpl. by rewrite Hp.
Qed.

Context {Schema YAMLDocument SingleYAMLDocument : Type}.
Variable offsetAt : TextDocument → Position → Z.
Variable positionAt : TextDocument → Z → Position.
Variable matchOffsetToDocument : Z → YAMLDocument → option SingleYAMLDocument.
Variable getNodeFromOffset : SingleYAMLDocument → Z → option ASTNode.

Local Abbreviation doHover :=
  (doHover offsetAt positionAt matchOffsetToDocument getNodeFromOffset).

(** X16: once hover is switched off by [configure], [doHover] answers absent
    for every document and position and asks nothing of the schema service
    or the documentation service; [configure] without settings changes
    nothing. *)
Theorem hover_switched_off_asks_nothing
    (self : YAMLHover Schema) (document : option TextDocument)
    (position : Position) (doc : YAMLDocument) :
  doHover (configure self (Some false)) document position doc
  = ([], Returned None)
  ∧ configure self None = self.
Proof. split; [| done]. by destruct document. Qed.

(** What [describeNode] asks and answers, case by case. *)
Lemma describeNode_cases (self : YAMLHover Schema) (document : TextDocument)
    (node : ASTNode) :
  let range_ := {| range_start := positionAt document (start node);
                   range_end := positionAt document (end_ node) |} in
  (∃ e, describeNode positionAt self document node = ([], Thrown e)
        ∧ getResourceName node = Thrown e)
  ∨ describeNode positionAt self document node = ([], Returned None)
  ∨ ∃ resourceType request markdown,
      getResourceName node = Returned (Some resourceType)
      ∧ 2 ≤ length (getPath node)
      ∧ (request = GetResourceDocumentation resourceType
           ∧ markdown = getResourceDocumentation (documentationService self)
                          resourceType
         ∨ ∃ name, request = GetPropertyDocumentation resourceType name
           ∧ markdown = getPropertyDocumentation (documentationService self)
                          resourceType name)
      ∧ describeNode positionAt self document node
        = ([request],
           Returned match markdown with
                    | Some text =>
                        if negb (String.eqb text "")
                        then Some (createHover [text] range_) else None
                    | None => None
                    end).
Proof.
  intros range_. unfold describeNode. fold range_.
  case_bool_decide as Hlen; [| by right; left].
  destruct (getResourceName node) as [[resourceType|]|e] eqn:Htype; simpl.
  - destruct (truthy resourceType); [| by right; left].
    right; right. exists resourceType.
    destruct (getPropertyName node) as [name|].
    + destruct (segmentTruthy name); simpl.
      * exists (GetPropertyDocumentation resourceType (String_ name)),
          (getPropertyDocumentation (documentationService self) resourceType
             (String_ name)).
        split; [done |]. split; [done |]. split; [right; by eexists |].
        by destruct (getPropertyDocumentation _ _ _) as [text|];
          [destruct (negb (String.eqb text "")) |].
      * exists (GetResourceDocumentation resourceType),
          (getResourceDocumentation (documentationService self) resourceType).
        split; [done |]. split; [done |]. split; [by left |].
        by destruct (getResourceDocumentation _ _) as [text|];
          [destruct (negb (String.eqb text "")) |].
    + simpl.
      exists (GetResourceDocumentation resourceType),
        (getResourceDocumentation (documentationService self) resourceType).
      split; [done |]. split; [done |]. split; [by left |].
      by destruct (getResourceDocumentation _ _) as [text|];
        [destruct (negb (String.eqb text "")) |].
  - by right; left.
  - left. by exists e.
Qed.

(** What [doHover] does before it describes the node. *)
Lemma doHover_cases (self : YAMLHover Schema) (document : TextDocument)
    (position : Position) (doc : YAMLDocument) :
  doHover self (Some document) position doc = ([], Returned None)
  ∨ doHover self (Some document) position doc
    = ([GetSchemaForResource (uri document)], Returned None)
  ∨ ∃ currentDoc node,
      shouldHover self = true
      ∧ matchOffsetToDocument (offsetAt document position) doc
        = Some currentDoc
      ∧ getNodeFromOffset currentDoc (offsetAt document position) = Some node
      ∧ insideContainer node (offsetAt document position) = false
      ∧ doHover self (Some document) position doc
        = (GetSchemaForResource (uri document)
             :: (describeNode positionAt self document node).1,
           (describeNode positionAt self document node).2).
Proof.
  unfold Hover.doHover.
  destruct (shouldHover self); simpl; [| by left].
  destruct (getSchemaForResource _ _); simpl; [| by right; left].
  destruct (matchOffsetToDocument _ _) as [currentDoc|] eqn:Hdoc;
    [| by right; left].
  destruct (getNodeFromOffset _ _) as [node|] eqn:Hnode; [| by right; left].
  destruct (insideContainer _ _) eqn:Hinside; [by right; left |].
  right; right. exists currentDoc, node. repeat (split; [done |]).
  by destruct (describeNode _ _ _ _).
Qed.

(** X17: a hover that [doHover] returns is made of one non-empty text, the one
    the documentation service gave for the resource type that
    [getResourceName] found for the resolved node, alone or with a property
    name, and it spans the resolved node from [start] to [end]. *)
Theorem returned_hover_is_documentation
    (self : YAMLHover Schema) (document : TextDocument) (position : Position)
    (doc : YAMLDocument) (result : Hover) :
  (doHover self (Some document) position doc).2 = Returned (Some result) →
  ∃ currentDoc node resourceType text,
    matchOffsetToDocument (offsetAt document position) doc = Some currentDoc
    ∧ getNodeFromOffset currentDoc (offsetAt document position) = Some node
    ∧ getResourceName node = Returned (Some resourceType)
    ∧ (getResourceDocumentation (documentationService self) resourceType
       = Some text
       ∨ ∃ name, getPropertyDocumentation (documentationService self)
                   resourceType name = Some text)
    ∧ text ≠ ""
    ∧ contents result = [text]
    ∧ hover_range result
      = {| range_start := positionAt document (start node);
           range_end := positionAt document (end_ node) |}.
Proof.
  destruct (doHover_cases self document position doc)
    as [-> | [-> | (currentDoc & node & _ & Hdoc & Hnode & _ & ->)]];
    [done | done |].
  destruct (describeNode_cases self document node)
    as [(e & -> & _) | [-> | (resourceType & request & markdown & Htype & _
                               & Hrequest & ->)]]; [done | done |].
  simpl. destruct markdown as [text|] eqn:Hmarkdown; [| done].
  destruct (String.eqb text "") eqn:Htext; [done |]. simpl.
  intros [= <-]. exists currentDoc, node, resourceType, text.
  split; [done |]. split; [done |]. split; [done |].
  split; [| by apply String.eqb_neq in Htext].
  destruct Hrequest as [[_ Hm] | (name & _ & Hm)]; [by left |].
  right. by exists name.
Qed.

(** X18: [doHover] asks for a schema at most once and first, and for
    documentation at most once: its requests are none, the schema request
    alone, or the schema request followed by one documentation request. *)
Theorem hover_asks_at_most_twice
    (self : YAMLHover Schema) (document : option TextDocument)
    (position : Position) (doc : YAMLDocument) :
  let calls := (doHover self document position doc).1 in
  calls = []
  ∨ ∃ target, document = Some target
     ∧ (calls = [GetSchemaForResource (uri target)]
        ∨ (∃ resourceType,
             calls = [GetSchemaForResource (uri target);
                      GetResourceDocumentation resourceType])
        ∨ (∃ resourceType name,
             calls = [GetSchemaForResource (uri target);
                      GetPropertyDocumentation resourceType name])).
Proof.
  intros calls. subst calls. destruct document as [document|]; [| by left].
  destruct (doHover_cases self document position doc)
    as [-> | [-> | (currentDoc & node & _ & _ & _ & _ & ->)]];
    [by left | right; exists document; split; [done | by left] |].
  right. exists document. split; [done |]. simpl.
  destruct (describeNode_cases self document node)
    as [(e & -> & _) | [-> | (resourceType & request & markdown & _ & _
                               & Hrequest & ->)]]; [by left | by left |].
  right. simpl.
  destruct Hrequest as [[-> _] | (name & -> & _)]; [left | right]; eauto.
Qed.

(** X19: for a node outside [Resources], or one whose path has fewer than two
    segments, [doHover] answers absent and asks for no documentation,
    whatever the tree declares. *)
Theorem hover_outside_resources_is_absent
    (self : YAMLHover Schema) (document : TextDocument) (position : Position)
    (doc : YAMLDocument) (currentDoc : SingleYAMLDocument) (node : ASTNode) :
  matchOffsetToDocument (offsetAt document position) doc = Some currentDoc →
  getNodeFromOffset currentDoc (offsetAt document position) = Some node →
  getPath node !! 0 ≠ Some (Key "Resources") ∨ length (getPath node) < 2 →
  (doHover self (Some document) position doc).2 = Returned None
  ∧ Forall (λ call, call = GetSchemaForResource (uri document))
       (doHover self (Some document) position doc).1.
Proof.
  intros Hdoc Hnode Hpath.
  destruct (doHover_cases self document position doc)
    as [-> | [-> | (currentDoc' & node' & _ & Hdoc' & Hnode' & _ & ->)]];
    [by split | split; [done | by repeat constructor] |].
  rewrite Hdoc in Hdoc'. injection Hdoc' as <-.
  rewrite Hnode in Hnode'. injection Hnode' as <-.
  assert (Hnone : getResourceName node = Returned None).
  { apply getResourceName_outside_Resources.
    destruct Hpath as [? | ?]; [by left | right; lia]. }
  destruct (describeNode_cases self document node)
    as [(e & _ & Hthrown) | [-> | (resourceType & _ & _ & Htype & _)]];
    [congruence | | congruence].
  split; [done | by repeat constructor].
Qed.

End MoreHover.

(** * Instances *)

Section MoreInstances.
Import Js Lsp Server Hover Samples HoverSamples.

(** Two changes of one document: the second timer is the only one set. *)
Lemma one_pending_validation_per_document_witness : (1 : Timer) = 1.
Proof.
  apply (one_pending_validation_per_document
           [DidChangeContent template; DidChangeContent mapping]
           1 1 mapping mapping); reflexivity.
Defined.

(** Three changes of one document, and the expiry of each of the timers. *)
Lemma burst_is_validated_once_witness :
  let events :=
    (DidChangeContent <$> [template; partialKey] ++ [mapping])
    ++ (Expired <$> [0; 1; 2]) in
  validated idle events = [] ∨ validated idle events = [mapping].
Proof.
  apply (burst_is_validated_once "file:///template.yaml"
           [template; partialKey] mapping [0; 1; 2]).
  repeat constructor.
Defined.

Example burst_validates_last :
  validated idle ((DidChangeContent <$> [template; partialKey; mapping])
                  ++ (Expired <$> [0; 1; 2]))
  = [mapping].
Proof. reflexivity. Qed.

(** The two entries of a configuration change, with a workspace root. *)
Lemma schema_bindings_follow_configuration_witness :
  let config :=
    defaultConfiguration (λ _, true) (λ _, false) (Some "sam") (Some "/w") in
  let languageSettings := languageSettingsOf id (λ r u, r +:+ "/" +:+ u) config in
  Forall2 (λ entry binding,
     bound_documentMatch binding = documentMatch entry
     ∧ (∀ u, url entry = Some u → u ≠ "" →
          String.get 0 u ≠ Some "."%char → bound_uri binding = u)
     ∧ (given (url entry) = false →
        (∀ inline, schema entry = Defined inline → given (id inline) = false) →
        bound_uri binding = "vscode://schemas/custom/*.yaml"))
    (default [] (schemaConfigurationSettings config))
    (schemas languageSettings)
  ∧ validate languageSettings = yamlShouldValidate config
  ∧ hover languageSettings = yamlShouldHover config
  ∧ completion languageSettings = yamlShouldCompletion config
  ∧ settings_customTags languageSettings = customTags.
Proof.
  apply (schema_bindings_follow_configuration id (λ r u, r +:+ "/" +:+ u)
           (defaultConfiguration (λ _, true) (λ _, false) (Some "sam")
              (Some "/w"))).
  reflexivity.
Defined.

Example default_bindings :
  bound_uri <$> schemas (languageSettingsOf id (λ r u, r +:+ "/" +:+ u)
                  (defaultConfiguration (λ _, true) (λ _, false) None None))
  = ["https://raw.githubusercontent.com/awslabs/goformation/master/schema/cloudformation.schema.json";
     "vscode://schemas/custom/*.yaml"].
Proof. reflexivity. Qed.

(** A configuration change while one validation is pending. *)
Lemma updateConfiguration_revalidates_open_documents_witness :
  let s := (updateConfiguration id (λ r u, r +:+ "/" +:+ u)
              (defaultConfiguration (λ _, true) (λ _, false) None None)
              [template; blankLines] (after [DidChangeContent mapping])).2 in
  ∃ request held,
    pendingValidationRequests s !! uri blankLines = Some request
    ∧ timers s !! request = Some held
    ∧ uri held = uri blankLines.
Proof.
  apply (updateConfiguration_revalidates_open_documents id
           (λ r u, r +:+ "/" +:+ u)
           (defaultConfiguration (λ _, true) (λ _, false) None None)
           [DidChangeContent mapping] [template; blankLines] blankLines).
  apply list_elem_of_further, list_elem_of_here.
Defined.

(** A validation of the template, seen from another document. *)
Lemma validation_leaves_other_documents_witness :
  editorAfter {["file:///other.yaml" := reported]}
    (validateTextDocument (λ _, true) (λ _ _, tt) (λ _ _, Some reported)
       ArrayUtils.removeDuplicatesObj (Some template))
    !! "file:///other.yaml"
  = ({["file:///other.yaml" := reported]} : gmap string (list Diagnostic))
      !! "file:///other.yaml".
Proof.
  apply (validation_leaves_other_documents (λ _, true) (λ _ _, tt)
           (λ _ _, Some reported) ArrayUtils.removeDuplicatesObj
           (Some template) "file:///other.yaml").
  intros td [= <-]. discriminate.
Defined.

(** The diagnostic published without a severity of its own. *)
Lemma published_diagnostics_come_from_validation_witness :
  ∃ d', d' ∈ reported ∧ range (setSeverity badValue) = range d'
        ∧ message (setSeverity badValue) = message d'
        ∧ source (setSeverity badValue) = source d'.
Proof.
  apply (published_diagnostics_come_from_validation (λ _, true) (λ _ _, tt)
           (λ _ _, Some reported) ArrayUtils.removeDuplicatesObj template
           reported (uri template)
           (ArrayUtils.removeDuplicatesObj (setSeverity <$> reported))
           (setSeverity badValue)).
  - exact removeDuplicatesObj_elem_of.
  - reflexivity.
  - do 2 apply list_elem_of_further. apply list_elem_of_here.
  - vm_compute. apply list_elem_of_further, list_elem_of_here.
Defined.

(** A validation that is rejected while diagnostics are shown. *)
Lemma rejected_validation_publishes_nothing_witness :
  let run := validateTextDocument (λ _, true) (λ _ _, tt) (λ _ _, None)
               ArrayUtils.removeDuplicatesObj (Some template) in
  (∀ target diagnostics, SendDiagnostics target diagnostics ∉ run)
  ∧ editorAfter {[uri template := reported]} run
    = {[uri template := reported]}.
Proof.
  apply (rejected_validation_publishes_nothing (λ _, true) (λ _ _, tt)
           (λ _ _, None) ArrayUtils.removeDuplicatesObj template
           {[uri template := reported]}).
  - discriminate.
  - reflexivity.
  - reflexivity.
Defined.

(** The second line of a three-line text. *)
Lemma completionHelper_keeps_surrounding_text_witness :
  let document :=
    {| uri := "file:///template.yaml";
       getText := utf16 "a:" ++ [LF] ++ utf16 "  b" ++ [LF] ++ utf16 "c: 1" |} in
  let fix_ := completionHelper ArrayUtils.getLineOffsets document (at_ 1 3) in
  take 3 (getText document) `prefix_of` newText fix_
  ∧ drop (nextLine ArrayUtils.getLineOffsets document (at_ 1 3))
         (getText document)
    `suffix_of` newText fix_.
Proof.
  apply (completionHelper_keeps_surrounding_text ArrayUtils.getLineOffsets
           {| uri := "file:///template.yaml";
              getText := utf16 "a:" ++ [LF] ++ utf16 "  b" ++ [LF]
                         ++ utf16 "c: 1" |}
           (at_ 1 3) 3).
  reflexivity.
Defined.

(** The third, empty line of [a], two empty lines and [b]: the [b] comes
    out twice. *)
Lemma completionHelper_on_line_after_line_end_witness :
  let text := getText blankLines in
  let next := nextLine ArrayUtils.getLineOffsets blankLines (at_ 2 0) in
  let cut := 3 + (3 - lineEnd ArrayUtils.getLineOffsets blankLines (at_ 2 0)) in
  let fix_ := completionHelper ArrayUtils.getLineOffsets blankLines (at_ 2 0) in
  newPosition fix_ = at_ 2 0
  ∧ newText fix_
    = take cut text ++ utf16 "holder:" ++ [CR; LF] ++ drop next text
  ∧ (next < cut → cut ≤ length text →
     take (cut - next) (drop next text) ≠ []
     ∧ newText fix_
       = take next text ++ take (cut - next) (drop next text)
         ++ utf16 "holder:" ++ [CR; LF]
         ++ take (cut - next) (drop next text) ++ drop cut text)
  ∧ (cut ≤ next →
     newText fix_
     = take cut text ++ utf16 "holder:" ++ [CR; LF]
       ++ drop (next - cut) (drop cut text)).
Proof.
  apply (completionHelper_on_line_after_line_end ArrayUtils.getLineOffsets
           blankLines (at_ 2 0) 3).
  - reflexivity.
  - vm_compute. lia.
  - vm_compute. lia.
  - vm_compute. lia.
Defined.

(** An empty line between an LF and a CR LF: the LF that ends the line is
    left out and nothing comes out twice. *)
Example completionHelper_drops_line_feed :
  newText (completionHelper ArrayUtils.getLineOffsets
             {| uri := "file:///template.yaml";
                getText := utf16 "a" ++ [LF; CR; LF] ++ utf16 "b" |}
             (at_ 1 0))
  = utf16 "a" ++ [LF; CR] ++ utf16 "holder:" ++ [CR; LF] ++ utf16 "b".
Proof. reflexivity. Qed.

(** The value of [BucketName], four levels under the bucket's object. *)
Lemma getResourceName_takes_nearest_witness :
  ∃ k up, k ≤ maxDepth
    ∧ ancestor k (propertyValue bucketName "BucketName") = Some up
    ∧ resourceNameOf up = Returned (Some (JString "AWS::S3::Bucket"))
    ∧ ∀ j nearer, j < k →
        ancestor j (propertyValue bucketName "BucketName") = Some nearer →
        resourceNameOf nearer = Returned None.
Proof.
  apply (getResourceName_takes_nearest
           (propertyValue bucketName "BucketName")
           (JString "AWS::S3::Bucket")).
  reflexivity.
Defined.

(** A node eight sequences deep inside the bucket's object. *)
Lemma getResourceName_stops_at_seventh_ancestor_witness :
  getResourceName (buried 8 (propertyBucket bucketName "BucketName"))
  = Returned None.
Proof.
  apply (getResourceName_stops_at_seventh_ancestor
           (buried 8 (propertyBucket bucketName "BucketName"))).
  intros k up Hk Hup.
  do 8 (destruct k as [|k]; [injection Hup as <-; reflexivity |]).
  unfold maxDepth in Hk. lia.
Defined.

Example getResourceName_reaches_seventh_ancestor :
  getResourceName (buried 7 (propertyBucket bucketName "BucketName"))
  = Returned (Some (JString "AWS::S3::Bucket")).
Proof. reflexivity. Qed.

Local Abbreviation hover :=
  (doHover offsetAt positionAt matchOffsetToDocument getNodeFromOffset).

(** The hover on the value of [BucketName]. *)
Lemma returned_hover_is_documentation_witness :
  let document := propertyDocument bucketName in
  ∃ currentDoc node resourceType text,
    matchOffsetToDocument (offsetAt document (at_ 4 18))
      (propertyValue bucketName "BucketName") = Some currentDoc
    ∧ getNodeFromOffset currentDoc (offsetAt document (at_ 4 18)) = Some node
    ∧ getResourceName node = Returned (Some resourceType)
    ∧ (getResourceDocumentation (documentationService service) resourceType
       = Some text
       ∨ ∃ name, getPropertyDocumentation (documentationService service)
                   resourceType name = Some text)
    ∧ text ≠ ""
    ∧ contents (createHover ["Property BucketName"]
                  {| range_start := at_ 4 18; range_end := at_ 4 19 |})
      = [text]
    ∧ hover_range (createHover ["Property BucketName"]
                     {| range_start := at_ 4 18; range_end := at_ 4 19 |})
      = {| range_start := positionAt document (start node);
           range_end := positionAt document (end_ node) |}.
Proof.
  apply (returned_hover_is_documentation offsetAt positionAt
           matchOffsetToDocument getNodeFromOffset service
           (propertyDocument bucketName) (at_ 4 18)
           (propertyValue bucketName "BucketName")).
  reflexivity.
Defined.

(** The value of [Outputs.Name]. *)
Lemma hover_outside_resources_is_absent_witness :
  (hover service (Some outputDocument) (at_ 1 8) outputValue).2
  = Returned None
  ∧ Forall (λ call, call = GetSchemaForResource (uri outputDocument))
      (hover service (Some outputDocument) (at_ 1 8) outputValue).1.
Proof.
  apply (hover_outside_resources_is_absent offsetAt positionAt
           matchOffsetToDocument getNodeFromOffset service outputDocument
           (at_ 1 8) outputValue outputValue outputValue).
  - reflexivity.
  - reflexivity.
  - left. discriminate.
Defined.

(** The value of [BucketName] in a template whose only [Type] is a
    string. *)
Lemma getResourceName_returns_on_string_types_witness :
  ∃ found,
    getResourceName (propertyValue bucketName "BucketName") = Returned found.
Proof.
  apply (getResourceName_returns_on_string_types
           (propertyValue bucketName "BucketName")).
  intros k up Hk Hup.
  do 8 (destruct k as [|k];
        [injection Hup as <-;
         repeat constructor; intros property v [= <-] _ Hkey [= <-];
         (discriminate || by eexists) |]).
  unfold maxDepth in Hk. lia.
Defined.

(** One change of a document, validated, then a change of the
    configuration while the document is open, validated again. *)
Example configuration_change_validates_again :
  validated idle [DidChangeContent template; Expired 0;
                  DidChangeConfiguration [template]; Expired 1]
  = [template; template].
Proof. reflexivity. Qed.

End MoreInstances.
